(** * cdti_data_export: side-file export for cardiac DTI DICOM series

    A shallow embedding of [cdti_data_export.py] and the properties of its
    metadata layer: the header flattener [dictify], the four field
    extractors, the layout check of the main routine, the assembly of the
    table and its sort.

    Python values are an inductive type, Python exceptions an error monad,
    floats are IEEE binary64 numbers ([spec_float] at precision 53), the
    pydicom objects the script touches (Dataset, DataElement, Sequence)
    are modelled by the operations the script applies to them. *)

From Stdlib Require Import ZArith List String Ascii Bool Lia.
From Stdlib Require Import Permutation Sorted SpecFloat DecimalString.
Import ListNotations.

Set Warnings "-register-all".

Local Open Scope string_scope.
Local Open Scope Z_scope.

(** ** Exceptions *)

(** The exceptions the modelled fragment can raise. *)
Inductive exn : Type :=
| KeyError
| IndexError
| TypeError
| ValueError
| OverflowError
| InvalidDicomError.

Inductive result (A : Type) : Type :=
| Ok (a : A)
| Raise (e : exn).

Arguments Ok {A} a.
Arguments Raise {A} e.

Definition bind {A B : Type} (c : result A) (k : A -> result B) : result B :=
  match c with
  | Ok a => k a
  | Raise e => Raise e
  end.

Notation "x <- c ;; k" := (bind c (fun x => k))
  (at level 61, c at next level, right associativity).
Notation "' pat <- c ;; k" := (bind c (fun pat => k))
  (at level 61, pat pattern, c at next level, right associativity).

(** ** Python and pydicom values *)

(** A value held by a header or by a pydicom element.  [VList] also stands
    for pydicom's MultiValue; [VSequence], [VDataset] and [VDataElement] are
    the pydicom objects themselves.  A [Dataset] lists its elements in the
    order iteration yields them (ascending tag); [public_keyword] is the
    entry of the element's tag in the public DICOM dictionary, if it has
    one. *)
Inductive pyval : Type :=
| VNone
| VInt (z : Z)
| VFloat (f : spec_float)
| VStr (s : string)
| VBytes (b : string)
| VList (l : list pyval)
| VDict (d : list (string * pyval))
| VSequence (items : list Dataset)
| VDataset (ds : Dataset)
| VDataElement (e : DataElement)
with Dataset : Type :=
| mkDataset (elems : list DataElement)
with DataElement : Type :=
| mkDataElement (tag : Z * Z) (public_keyword : option string)
                (VR : string) (value : pyval).

Definition pydict : Type := list (string * pyval).

Definition elems (ds : Dataset) : list DataElement :=
  match ds with mkDataset es => es end.

Definition tag (e : DataElement) : Z * Z :=
  match e with mkDataElement t _ _ _ => t end.

Definition public_keyword (e : DataElement) : option string :=
  match e with mkDataElement _ k _ _ => k end.

Definition VR (e : DataElement) : string :=
  match e with mkDataElement _ _ vr _ => vr end.

Definition value (e : DataElement) : pyval :=
  match e with mkDataElement _ _ _ v => v end.

(** [DataElement.keyword]: the public keyword, and the empty string for a
    private or unknown element. *)
Definition keyword (e : DataElement) : string :=
  match public_keyword e with
  | Some k => k
  | None => ""
  end.

(** ** Dictionaries *)

(** A dict keeps its keys unique and in insertion order. *)
Fixpoint dict_get (d : pydict) (k : string) : option pyval :=
  match d with
  | [] => None
  | (k', v) :: d' => if String.eqb k' k then Some v else dict_get d' k
  end.

(** [d[k] = v]: overwrite in place, or append. *)
Fixpoint dict_set (d : pydict) (k : string) (v : pyval) : pydict :=
  match d with
  | [] => [(k, v)]
  | (k', v') :: d' =>
      if String.eqb k' k then (k', v) :: d' else (k', v') :: dict_set d' k v
  end.

Definition dict_getitem (d : pydict) (k : string) : result pyval :=
  match dict_get d k with
  | Some v => Ok v
  | None => Raise KeyError
  end.

(** ** Sequences and subscripts *)

(** [l[i]] on a Python sequence: a negative index counts from the end. *)
Definition py_index {A : Type} (l : list A) (i : Z) : result A :=
  let n := Z.of_nat (List.length l) in
  let j := if i <? 0 then i + n else i in
  if (j <? 0) || (n <=? j) then Raise IndexError
  else match nth_error l (Z.to_nat j) with
       | Some a => Ok a
       | None => Raise IndexError
       end.

Fixpoint string_skipn (n : nat) (s : string) : string :=
  match n, s with
  | O, _ => s
  | S _, EmptyString => EmptyString
  | S n', String _ s' => string_skipn n' s'
  end.

Fixpoint string_firstn (n : nat) (s : string) : string :=
  match n, s with
  | O, _ => EmptyString
  | S _, EmptyString => EmptyString
  | S n', String c s' => String c (string_firstn n' s')
  end.

(** The 32-bit number of a (group, element) tag. *)
Definition tag_number (t : Z * Z) : Z := fst t * 65536 + snd t.

Definition find_keyword (k : string) (ds : Dataset) : option DataElement :=
  find (fun e => match public_keyword e with
                 | Some k' => String.eqb k' k
                 | None => false
                 end) (elems ds).

Definition find_tag (t : Z * Z) (ds : Dataset) : option DataElement :=
  find (fun e => tag_number (tag e) =? tag_number t) (elems ds).

(** [v[k]] for a str key [k]. *)
Fixpoint subscript_key (v : pyval) (k : string) : result pyval :=
  match v with
  | VDict d => dict_getitem d k
  | VDataset ds =>
      match find_keyword k ds with
      | Some e => Ok (VDataElement e)
      | None => Raise KeyError
      end
  | VDataElement (mkDataElement _ _ _ v') => subscript_key v' k
  | _ => Raise TypeError
  end.

(** [v[i]] for an int [i]. *)
Fixpoint subscript_idx (v : pyval) (i : Z) : result pyval :=
  match v with
  | VList l => py_index l i
  | VStr s =>
      c <- py_index (list_ascii_of_string s) i ;; Ok (VStr (String c ""))
  | VBytes b =>
      c <- py_index (list_ascii_of_string b) i ;;
      Ok (VInt (Z.of_N (N_of_ascii c)))
  | VDict _ => Raise KeyError
  | VSequence items => ds <- py_index items i ;; Ok (VDataset ds)
  | VDataset ds =>
      match find (fun e => tag_number (tag e) =? i) (elems ds) with
      | Some e => Ok (VDataElement e)
      | None => Raise KeyError
      end
  | VDataElement (mkDataElement _ _ _ v') => subscript_idx v' i
  | _ => Raise TypeError
  end.

(** [v[n:]] for a literal [n >= 0]. *)
Fixpoint slice_from (v : pyval) (n : nat) : result pyval :=
  match v with
  | VStr s => Ok (VStr (string_skipn n s))
  | VBytes b => Ok (VBytes (string_skipn n b))
  | VList l => Ok (VList (skipn n l))
  | VSequence items => Ok (VList (map VDataset (skipn n items)))
  | VDataset ds =>
      Ok (VDataset (mkDataset
            (filter (fun e => Z.of_nat n <=? tag_number (tag e)) (elems ds))))
  | VDataElement (mkDataElement _ _ _ v') => slice_from v' n
  | _ => Raise TypeError
  end.

(** [v[:n]] for a literal [n >= 0]. *)
Fixpoint slice_to (v : pyval) (n : nat) : result pyval :=
  match v with
  | VStr s => Ok (VStr (string_firstn n s))
  | VBytes b => Ok (VBytes (string_firstn n b))
  | VList l => Ok (VList (firstn n l))
  | VSequence items => Ok (VList (map VDataset (firstn n items)))
  | VDataset ds =>
      Ok (VDataset (mkDataset
            (filter (fun e => tag_number (tag e) <? Z.of_nat n) (elems ds))))
  | VDataElement (mkDataElement _ _ _ v') => slice_to v' n
  | _ => Raise TypeError
  end.

(** [len(v)]. *)
Definition py_len (v : pyval) : result Z :=
  match v with
  | VStr s => Ok (Z.of_nat (String.length s))
  | VBytes b => Ok (Z.of_nat (String.length b))
  | VList l => Ok (Z.of_nat (List.length l))
  | VDict d => Ok (Z.of_nat (List.length d))
  | VSequence items => Ok (Z.of_nat (List.length items))
  | VDataset ds => Ok (Z.of_nat (List.length (elems ds)))
  | _ => Raise TypeError
  end.

(** ** Floats *)

(** Python's float is IEEE binary64. *)
Definition prec : Z := 53.
Definition emax : Z := 1024.

(** The binary64 number nearest to [(-1)^neg * m * 10^e10] (ties to even),
    as [float] computes it from a decimal literal. *)
Definition float_of_decimal (neg : bool) (m : Z) (e10 : Z) : spec_float :=
  match m with
  | Zpos p =>
      if 0 <=? e10
      then binary_round prec emax neg (Z.to_pos (Zpos p * 10 ^ e10)) 0
      else SFdiv prec emax (S754_finite neg p 0)
                 (S754_finite false (Z.to_pos (10 ^ (- e10))) 0)
  | _ => S754_zero neg
  end.

(** [float(z)] for an int: the nearest binary64 number; an int beyond the
    range of the finite floats raises OverflowError. *)
Definition float_of_int (z : Z) : result spec_float :=
  match binary_normalize prec emax z 0 false with
  | S754_infinity _ => Raise OverflowError
  | f => Ok f
  end.

Definition ascii_code (c : ascii) : Z := Z.of_N (N_of_ascii c).

Definition digit_of (c : ascii) : option Z :=
  let n := ascii_code c in
  if (48 <=? n) && (n <=? 57) then Some (n - 48) else None.

Definition is_digit (c : ascii) : bool :=
  match digit_of c with Some _ => true | None => false end.

(** The characters [float] strips from both ends: the ASCII white space and,
    in a str, the two Latin-1 spaces. *)
Definition is_space (unicode : bool) (c : ascii) : bool :=
  let n := ascii_code c in
  ((9 <=? n) && (n <=? 13)) || (n =? 32)
  || (unicode && ((n =? 133) || (n =? 160))).

Fixpoint lstrip (unicode : bool) (cs : list ascii) : list ascii :=
  match cs with
  | c :: cs' => if is_space unicode c then lstrip unicode cs' else cs
  | [] => []
  end.

Definition strip (unicode : bool) (cs : list ascii) : list ascii :=
  rev (lstrip unicode (rev (lstrip unicode cs))).

(** A run of digits, single underscores allowed between two digits; returns
    the digits and what follows the run. *)
Fixpoint digit_run (cs : list ascii) : list Z * list ascii :=
  match cs with
  | [] => ([], [])
  | c :: r =>
      match digit_of c with
      | None => ([], cs)
      | Some d =>
          let '(ds, rest) :=
            match r with
            | "_"%char :: r2 =>
                match r2 with
                | c2 :: _ => if is_digit c2 then digit_run r2 else ([], r)
                | [] => ([], r)
                end
            | _ => digit_run r
            end in
          (d :: ds, rest)
      end
  end.

Definition digits_value (ds : list Z) : Z :=
  fold_left (fun acc d => 10 * acc + d) ds 0.

Definition lower (c : ascii) : ascii :=
  let n := ascii_code c in
  if (65 <=? n) && (n <=? 90) then ascii_of_N (Z.to_N (n + 32)) else c.

Definition lower_string (cs : list ascii) : string :=
  string_of_list_ascii (map lower cs).

Definition split_sign (cs : list ascii) : bool * list ascii :=
  match cs with
  | "-"%char :: r => (true, r)
  | "+"%char :: r => (false, r)
  | _ => (false, cs)
  end.

(** The exponent part: empty, or [e] or [E], an optional sign and digits. *)
Definition parse_exponent (cs : list ascii) : option Z :=
  match cs with
  | [] => Some 0
  | c :: r =>
      if String.eqb (lower_string [c]) "e" then
        let '(neg, r') := split_sign r in
        match digit_run r' with
        | (d :: ds, []) =>
            let e := digits_value (d :: ds) in
            Some (if neg then - e else e)
        | _ => None
        end
      else None
  end.

(** A decimal literal: digits, an optional point and digits (at least one
    digit in all), an optional exponent; as mantissa and power of ten. *)
Definition parse_decimal (cs : list ascii) : option (Z * Z) :=
  let '(int_ds, r1) := digit_run cs in
  let '(frac_ds, r2) :=
    match r1 with
    | "."%char :: r => digit_run r
    | _ => ([], r1)
    end in
  match (int_ds ++ frac_ds)%list with
  | [] => None
  | ds =>
      match parse_exponent r2 with
      | Some e => Some (digits_value ds, e - Z.of_nat (List.length frac_ds))
      | None => None
      end
  end.

(** [float(s)] for a str ([unicode = true]) or for bytes. *)
Definition float_of_string (unicode : bool) (s : string) : result spec_float :=
  let '(neg, body) := split_sign (strip unicode (list_ascii_of_string s)) in
  let word := lower_string body in
  if String.eqb word "inf" || String.eqb word "infinity"
  then Ok (S754_infinity neg)
  else if String.eqb word "nan" then Ok S754_nan
  else match parse_decimal body with
       | Some (m, e10) => Ok (float_of_decimal neg m e10)
       | None => Raise ValueError
       end.

(** [float(v)]. *)
Definition py_float (v : pyval) : result spec_float :=
  match v with
  | VFloat f => Ok f
  | VInt z => float_of_int z
  | VStr s => float_of_string true s
  | VBytes b => float_of_string false b
  | _ => Raise TypeError
  end.

(** [round(f)] with one argument: the nearest int, a tie going to the even
    one; OverflowError on an infinity, ValueError on a NaN. *)
Definition py_round (f : spec_float) : result Z :=
  match f with
  | S754_zero _ => Ok 0
  | S754_infinity _ => Raise OverflowError
  | S754_nan => Raise ValueError
  | S754_finite s m e =>
      let n :=
        if 0 <=? e then Zpos m * 2 ^ e
        else
          let d := 2 ^ (- e) in
          let q := Zpos m / d in
          let r := Zpos m mod d in
          match 2 * r ?= d with
          | Lt => q
          | Gt => q + 1
          | Eq => if Z.even q then q else q + 1
          end in
      Ok (if s then - n else n)
  end.

(** [str(z)] for an int. *)
Definition string_of_Z (z : Z) : string :=
  NilZero.string_of_int (Z.to_int z).

(** ** Strings *)

(** [s.replace(" ", "_")]. *)
Fixpoint replace_space (s : string) : string :=
  match s with
  | EmptyString => EmptyString
  | String c s' =>
      String (if Ascii.eqb c " " then "_"%char else c) (replace_space s')
  end.

(** [a + b] where one operand is a str: defined when both are. *)
Definition str_concat (a b : pyval) : result string :=
  match a, b with
  | VStr x, VStr y => Ok (x ++ y)
  | _, _ => Raise TypeError
  end.

Fixpoint basename_from (p acc : string) : string :=
  match p with
  | EmptyString => acc
  | String c p' =>
      if Ascii.eqb c "/" then basename_from p' EmptyString
      else basename_from p' (acc ++ String c EmptyString)
  end.

(** [os.path.basename]: what follows the last slash. *)
Definition basename (p : string) : string := basename_from p EmptyString.

(** ** Field extractors *)

Definition get_nominal_interval
  (c_dicom_header : pydict) (dicom_type frame_idx : Z) : result pyval :=
  if dicom_type =? 2 then
    groups <- dict_getitem c_dicom_header "PerFrameFunctionalGroupsSequence" ;;
    frame <- subscript_idx groups frame_idx ;;
    sync <- subscript_key frame "CardiacSynchronizationSequence" ;;
    item <- subscript_idx sync 0 ;;
    rr <- subscript_key item "RRIntervalTimeNominal" ;;
    val <- py_float rr ;;
    Ok (VFloat val)
  else if dicom_type =? 1 then
    ni <- dict_getitem c_dicom_header "NominalInterval" ;;
    val <- py_float ni ;;
    Ok (VFloat val)
  else Ok VNone.

Definition get_acquisition_time
  (c_dicom_header : pydict) (dicom_type frame_idx : Z) : result pyval :=
  if dicom_type =? 2 then
    groups <- dict_getitem c_dicom_header "PerFrameFunctionalGroupsSequence" ;;
    frame <- subscript_idx groups frame_idx ;;
    content <- subscript_key frame "FrameContentSequence" ;;
    item <- subscript_idx content 0 ;;
    dt <- subscript_key item "FrameAcquisitionDateTime" ;;
    slice_from dt 8
  else if dicom_type =? 1 then
    dict_getitem c_dicom_header "AcquisitionTime"
  else Ok VNone.

Definition get_acquisition_date
  (c_dicom_header : pydict) (dicom_type frame_idx : Z) : result pyval :=
  if dicom_type =? 2 then
    groups <- dict_getitem c_dicom_header "PerFrameFunctionalGroupsSequence" ;;
    frame <- subscript_idx groups frame_idx ;;
    content <- subscript_key frame "FrameContentSequence" ;;
    item <- subscript_idx content 0 ;;
    dt <- subscript_key item "FrameAcquisitionDateTime" ;;
    slice_to dt 8
  else if dicom_type =? 1 then
    dict_getitem c_dicom_header "AcquisitionDate"
  else Ok VNone.

(** ** Header flattener *)

Definition has_tag (t : Z * Z) (ds : Dataset) : bool :=
  match find_tag t ds with Some _ => true | None => false end.

(** [ds[t].value], used after [has_tag] has answered yes. *)
Definition tag_value (t : Z * Z) (ds : Dataset) : result pyval :=
  match find_tag t ds with
  | Some e => Ok (value e)
  | None => Raise KeyError
  end.

(** The loop stores every element under [elem.keyword]; an element of VR
    SQ holds a Sequence (pydicom builds no other SQ element), any other
    value there is reported as TypeError. *)
Fixpoint dictify (ds : Dataset) : result pydict :=
  match ds with
  | mkDataset all_elems =>
      output <-
        (fix loop (es : list DataElement) (output : pydict) {struct es}
           : result pydict :=
           match es with
           | [] => Ok output
           | mkDataElement t k vr v :: rest =>
               let elem := mkDataElement t k vr v in
               if negb (String.eqb vr "SQ")
               then loop rest (dict_set output (keyword elem) v)
               else
                 match v with
                 | VSequence items =>
                     l <- (fix each (its : list Dataset) : result (list pyval) :=
                             match its with
                             | [] => Ok []
                             | item :: its' =>
                                 d <- dictify item ;;
                                 r <- each its' ;;
                                 Ok (VDict d :: r)
                             end) items ;;
                     loop rest (dict_set output (keyword elem) (VList l))
                 | _ => Raise TypeError
                 end
           end) all_elems [] ;;
      output <-
        (if has_tag (0x0019, 0x100C) ds
         then v <- tag_value (0x0019, 0x100C) ds ;;
              Ok (dict_set output "DiffusionBValue" v)
         else Ok output) ;;
      output <-
        (if has_tag (0x0019, 0x100E) ds
         then v <- tag_value (0x0019, 0x100E) ds ;;
              Ok (dict_set output "DiffusionGradientDirection" v)
         else Ok output) ;;
      Ok output
  end.

(** ** Stable sorting *)

(** [list.sort] and the multi-key [DataFrame.sort_values] are stable sorts.
    For a total preorder a stable sort has one possible result, computed
    here by insertion: an element goes in front of the first element that
    is not smaller. *)
Section StableSort.
Context {A : Type} (leb : A -> A -> bool).

Fixpoint insert_sorted (x : A) (l : list A) : list A :=
  match l with
  | [] => [x]
  | y :: t => if leb x y then x :: l else y :: insert_sorted x t
  end.

Fixpoint stable_sort (l : list A) : list A :=
  match l with
  | [] => []
  | x :: t => insert_sorted x (stable_sort t)
  end.

(** Two elements that the order does not tell apart. *)
Definition tied (k x : A) : bool := leb k x && leb x k.
End StableSort.

(** ** Rows and files *)

(** A row of the table, under the column labels of the csv file. *)
Record Row : Type := mkRow {
  file_name : string;
  nominal_interval : pyval;
  acquisition_time : pyval;
  acquisition_date : pyval;
  nii_file_suffix : pyval
}.

(** A file matched by [glob]: its path and the dataset in it, [None] when
    pydicom cannot parse the file. *)
Record DicomFile : Type := mkDicomFile {
  path : string;
  content : option Dataset
}.

Definition dcmread (f : DicomFile) : result Dataset :=
  match content f with
  | Some ds => Ok ds
  | None => Raise InvalidDicomError
  end.

(** [dicom_files.sort()]: by path. *)
Definition sort_files (fs : list DicomFile) : list DicomFile :=
  stable_sort (fun f g => String.leb (path f) (path g)) fs.

(** Order of the values of a key column: strings by code point, as Python
    compares them, and ints by value; a missing value (None) goes after
    every string and every int (pandas' [na_position] is "last").  The
    order is that of pandas for a column of strings and for a column of
    ints, each with or without missing values.  A column of another kind
    or of mixed kinds is outside what is modelled: there strings go before
    ints and every other value counts as missing. *)
Definition key_leb (a b : pyval) : bool :=
  match a, b with
  | VStr x, VStr y => String.leb x y
  | VInt x, VInt y => x <=? y
  | VStr _, _ => true
  | _, VStr _ => false
  | VInt _, _ => true
  | _, VInt _ => false
  | _, _ => true
  end.

(** Rows compared by acquisition date, then by acquisition time. *)
Definition row_leb (r1 r2 : Row) : bool :=
  if key_leb (acquisition_date r1) (acquisition_date r2)
  then if key_leb (acquisition_date r2) (acquisition_date r1)
       then key_leb (acquisition_time r1) (acquisition_time r2)
       else true
  else false.

(** [df.sort_values(by=["acquisition_date", "acquisition_time"])]. *)
Definition sort_values (df : list Row) : list Row :=
  stable_sort row_leb df.

(** The key columns of a row hold strings, as pydicom returns for date,
    time and date-time elements. *)
Definition str_keyed (r : Row) : Prop :=
  exists d t, acquisition_date r = VStr d /\ acquisition_time r = VStr t.

(** The row has acquisition date [d] and acquisition time [t]. *)
Definition has_key (d t : string) (r : Row) : bool :=
  match acquisition_date r, acquisition_time r with
  | VStr d', VStr t' => String.eqb d d' && String.eqb t t'
  | _, _ => false
  end.

(** [range(n)]. *)
Definition range (n : Z) : list Z :=
  map Z.of_nat (seq 0 (Z.to_nat n)).

(** ** Layout check *)

(** The header version and the number of images per file, as the main
    routine reads them off the first dataset: 2 (modern) when the dataset
    has a PerFrameFunctionalGroupsSequence element, 1 (legacy) otherwise. *)
Definition classify (ds : Dataset) : result (Z * Z) :=
  match find_keyword "PerFrameFunctionalGroupsSequence" ds with
  | Some e =>
      let dicom_type := 2 in
      n_images_per_file <- py_len (value e) ;;
      Ok (dicom_type, n_images_per_file)
  | None =>
      let dicom_type := 1 in
      let n_images_per_file := 1 in
      Ok (dicom_type, n_images_per_file)
  end.

(** ** Suffix, assembly and main routine *)

Section Script.
(** [repr] of the values whose [str] is not spelled out below (floats,
    bytes, lists, dicts, pydicom objects): no property depends on it. *)
Variable py_repr : pyval -> string.

(** [str(v)]. *)
Definition py_str (v : pyval) : string :=
  match v with
  | VStr s => s
  | VInt z => string_of_Z z
  | VNone => "None"
  | _ => py_repr v
  end.

Definition get_nii_file_suffix
  (c_dicom_header : pydict) (dicom_type frame_idx : Z) : result pyval :=
  if dicom_type =? 2 then
    description <- dict_getitem c_dicom_header "SeriesDescription" ;;
    s1 <- str_concat description (VStr "_") ;;
    series_date <- dict_getitem c_dicom_header "SeriesDate" ;;
    s2 <- str_concat (VStr s1) series_date ;;
    study_time <- dict_getitem c_dicom_header "StudyTime" ;;
    t <- py_float study_time ;;
    seconds <- py_round t ;;
    s3 <- str_concat (VStr s2) (VStr (py_str (VInt seconds))) ;;
    s4 <- str_concat (VStr s3) (VStr "_") ;;
    series_number <- dict_getitem c_dicom_header "SeriesNumber" ;;
    suffix <- str_concat (VStr s4) (VStr (py_str series_number)) ;;
    Ok (VStr (replace_space suffix))
  else if dicom_type =? 1 then
    description <- dict_getitem c_dicom_header "SeriesDescription" ;;
    s1 <- str_concat description (VStr "_") ;;
    series_date <- dict_getitem c_dicom_header "SeriesDate" ;;
    s2 <- str_concat (VStr s1) series_date ;;
    study_time <- dict_getitem c_dicom_header "StudyTime" ;;
    t <- py_float study_time ;;
    seconds <- py_round t ;;
    s3 <- str_concat (VStr s2) (VStr (py_str (VInt seconds))) ;;
    s4 <- str_concat (VStr s3) (VStr "_") ;;
    series_number <- dict_getitem c_dicom_header "SeriesNumber" ;;
    suffix <- str_concat (VStr s4) (VStr (py_str series_number)) ;;
    Ok (VStr (replace_space suffix))
  else Ok VNone.

(** The tuple appended to [df] for one file and one frame index. *)
Definition make_row (file_path : string) (c_dicom_header : pydict)
  (dicom_type frame_idx : Z) : result Row :=
  let name := basename file_path in
  interval <- get_nominal_interval c_dicom_header dicom_type frame_idx ;;
  time <- get_acquisition_time c_dicom_header dicom_type frame_idx ;;
  date <- get_acquisition_date c_dicom_header dicom_type frame_idx ;;
  suffix <- get_nii_file_suffix c_dicom_header dicom_type frame_idx ;;
  Ok (mkRow name interval time date suffix).

(** The loop over the images of one file. *)
Fixpoint frame_loop (file_path : string) (c_dicom_header : pydict)
  (dicom_type : Z) (frames : list Z) (df : list Row) : result (list Row) :=
  match frames with
  | [] => Ok df
  | frame_idx :: frames' =>
      row <- make_row file_path c_dicom_header dicom_type frame_idx ;;
      frame_loop file_path c_dicom_header dicom_type frames' (df ++ [row])
  end.

(** The loop over the files. *)
Fixpoint file_loop (dicom_type n_images_per_file : Z)
  (dicom_files : list DicomFile) (df : list Row) : result (list Row) :=
  match dicom_files with
  | [] => Ok df
  | file :: files' =>
      ds <- dcmread file ;;
      c_dicom_header <- dictify ds ;;
      df' <- frame_loop (path file) c_dicom_header dicom_type
               (range n_images_per_file) df ;;
      file_loop dicom_type n_images_per_file files' df'
  end.

(** The main routine, from the files [glob] matched to the rows written
    to rr_timings.csv.  Creating the output folder, running dcm2niix and
    printing leave the table as it is and are left out. *)
Definition get_data_from_dicoms_and_export
  (matched : list DicomFile) : result (list Row) :=
  let dicom_files := sort_files matched in
  first <- py_index dicom_files 0 ;;
  ds <- dcmread first ;;
  ' (dicom_type, n_images_per_file) <- classify ds ;;
  df <- file_loop dicom_type n_images_per_file dicom_files [] ;;
  Ok (sort_values df).
End Script.

(** ** Reading the dispatch and the table *)

(** Control reaches the end of an extractor's if/elif chain. *)
Definition falls_through (dicom_type : Z) : bool :=
  negb (dicom_type =? 2) && negb (dicom_type =? 1).

(** The suffix in the words of the specification: series description,
    series date followed at once by the whole seconds of the study time,
    and series number, joined by underscores, every space replaced by an
    underscore. *)
Definition suffix_of_fields
  (description series_date : string) (seconds : Z) (series_number : string)
  : string :=
  replace_space
    (String.concat "_"
       [description; series_date ++ string_of_Z seconds; series_number]).

(** Row [r] is what the assembly appends for file [fst fi] and frame index
    [snd fi] under layout [dicom_type]. *)
Definition row_of_pair (py_repr : pyval -> string) (dicom_type : Z)
  (fi : DicomFile * Z) (r : Row) : Prop :=
  exists ds c_dicom_header,
    dcmread (fst fi) = Ok ds /\
    dictify ds = Ok c_dicom_header /\
    make_row py_repr (path (fst fi)) c_dicom_header dicom_type (snd fi) = Ok r.

(** Every key of header [h] is the public keyword of an element of [ds] or
    one of the two keys added for the private diffusion fields. *)
Definition keys_public_or_synthetic (ds : Dataset) (h : pydict) : Prop :=
  forall k v, In (k, v) h ->
    k = "DiffusionBValue" \/ k = "DiffusionGradientDirection" \/
    exists e, In e (elems ds) /\ public_keyword e = Some k.

(** ** Sample data *)

(** A stand-in for [repr] where a closed term is needed. *)
Definition blank_repr : pyval -> string := fun _ => "".

Definition legacy_header : pydict :=
  [ ("SeriesDescription", VStr "DTI SAX");
    ("SeriesDate", VStr "20230101");
    ("StudyTime", VStr "143022.5");
    ("SeriesNumber", VInt 7);
    ("AcquisitionDate", VStr "20230101");
    ("AcquisitionTime", VStr "143025");
    ("NominalInterval", VStr "850") ].

(** The float 850.0, that is 7476679068876800 * 2^-43. *)
Definition float_850 : spec_float :=
  S754_finite false 7476679068876800 (-43).

Definition sample_row (name time suffix : string) : Row :=
  mkRow name (VFloat float_850) (VStr time) (VStr "20230101") (VStr suffix).

Definition frame_item (date_time : string) (rr : spec_float) : Dataset :=
  mkDataset
    [ mkDataElement (0x0018, 0x9118) (Some "CardiacSynchronizationSequence") "SQ"
        (VSequence [mkDataset
           [mkDataElement (0x0020, 0x9251) (Some "RRIntervalTimeNominal") "FD"
              (VFloat rr)]]);
      mkDataElement (0x0020, 0x9111) (Some "FrameContentSequence") "SQ"
        (VSequence [mkDataset
           [mkDataElement (0x0018, 0x9074) (Some "FrameAcquisitionDateTime") "DT"
              (VStr date_time)]]) ].

Definition modern_dataset (date_times : list string) : Dataset :=
  mkDataset
    [ mkDataElement (0x0008, 0x0021) (Some "SeriesDate") "DA" (VStr "20230101");
      mkDataElement (0x0008, 0x0030) (Some "StudyTime") "TM" (VStr "143022.5");
      mkDataElement (0x0008, 0x103E) (Some "SeriesDescription") "LO"
        (VStr "DTI SAX");
      mkDataElement (0x0020, 0x0011) (Some "SeriesNumber") "IS" (VInt 7);
      mkDataElement (0x5200, 0x9230) (Some "PerFrameFunctionalGroupsSequence")
        "SQ" (VSequence (map (fun dt => frame_item dt float_850) date_times)) ].

Definition modern_dataset_a : Dataset :=
  modern_dataset ["20230101143020"; "20230101143022"; "20230101143024"].

Definition modern_dataset_b : Dataset :=
  modern_dataset ["20230101143021"; "20230101143023"; "20230101143025"].

Definition modern_file_a : DicomFile :=
  mkDicomFile "scan/a.dcm" (Some modern_dataset_a).

Definition modern_file_b : DicomFile :=
  mkDicomFile "scan/b.dcm" (Some modern_dataset_b).

(** Two modern files of three frames each, as [glob] may list them. *)
Definition modern_files : list DicomFile := [modern_file_b; modern_file_a].

(** A legacy dataset with one public element and two private ones, the
    first of them at the address of the b-value. *)
Definition mixed_dataset : Dataset :=
  mkDataset
    [ mkDataElement (0x0008, 0x103E) (Some "SeriesDescription") "LO"
        (VStr "DTI SAX");
      mkDataElement (0x0019, 0x100C) None "IS" (VInt 1000);
      mkDataElement (0x0029, 0x1010) None "LO" (VStr "vendor data") ].

Definition modern_table : list Row :=
  [ sample_row "a.dcm" "143020" "DTI_SAX_20230101143022_7";
    sample_row "b.dcm" "143021" "DTI_SAX_20230101143022_7";
    sample_row "a.dcm" "143022" "DTI_SAX_20230101143022_7";
    sample_row "b.dcm" "143023" "DTI_SAX_20230101143022_7";
    sample_row "a.dcm" "143024" "DTI_SAX_20230101143022_7";
    sample_row "b.dcm" "143025" "DTI_SAX_20230101143022_7" ].

(** A table whose input order differs from the sorted one and which has
    two rows under one key. *)
Definition unsorted_table : list Row :=
  [ mkRow "c.dcm" VNone (VStr "090000") (VStr "20230102") VNone;
    mkRow "a.dcm" VNone (VStr "235959") (VStr "20230101") VNone;
    mkRow "d.dcm" VNone (VStr "090000") (VStr "20230102") VNone;
    mkRow "b.dcm" VNone (VStr "101500") (VStr "20230101") VNone ].

(** ** The flattener, loop by loop *)

(** The list comprehension of [dictify]: the items of a sequence, each
    flattened, in order. *)
Definition dictify_items : list Dataset -> result (list pyval) :=
  fix each (its : list Dataset) : result (list pyval) :=
    match its with
    | [] => Ok []
    | item :: its' =>
        d <- dictify item ;;
        r <- each its' ;;
        Ok (VDict d :: r)
    end.

(** What the loop of [dictify] stores for one element. *)
Definition flatten_elem (e : DataElement) : result pyval :=
  if negb (String.eqb (VR e) "SQ") then Ok (value e)
  else match value e with
       | VSequence items => l <- dictify_items items ;; Ok (VList l)
       | _ => Raise TypeError
       end.

(** The loop of [dictify] over the elements, from the dict built so far. *)
Fixpoint dictify_loop (es : list DataElement) (output : pydict)
  : result pydict :=
  match es with
  | [] => Ok output
  | elem :: rest =>
      v <- flatten_elem elem ;;
      dictify_loop rest (dict_set output (keyword elem) v)
  end.

(** The last element of [es] whose [keyword] is [k]. *)
Fixpoint last_with_keyword (k : string) (es : list DataElement)
  : option DataElement :=
  match es with
  | [] => None
  | e :: rest =>
      match last_with_keyword k rest with
      | Some e' => Some e'
      | None => if String.eqb (keyword e) k then Some e else None
      end
  end.

(** At most one element of [ds] has keyword [k], as in a dataset read by
    pydicom, where tags are unique. *)
Definition keyword_unique (k : string) (ds : Dataset) : Prop :=
  forall e e', In e (elems ds) -> In e' (elems ds) ->
    keyword e = k -> keyword e' = k -> e = e'.

(** The flattened header of [modern_dataset_a]. *)
Definition modern_header_a : pydict :=
  Eval vm_compute in
    match dictify modern_dataset_a with
    | Ok h => h
    | Raise _ => []
    end.

(** ** Keys an assembly step reads *)

Definition agree_on (keys : list string) (h h' : pydict) : Prop :=
  Forall (fun k => dict_get h k = dict_get h' k) keys.

(** The top-level keys the four extractors look up under a layout. *)
Definition keys_read (dicom_type : Z) : list string :=
  if dicom_type =? 2 then
    [ "PerFrameFunctionalGroupsSequence"; "SeriesDescription"; "SeriesDate";
      "StudyTime"; "SeriesNumber" ]
  else if dicom_type =? 1 then
    [ "NominalInterval"; "AcquisitionTime"; "AcquisitionDate";
      "SeriesDescription"; "SeriesDate"; "StudyTime"; "SeriesNumber" ]
  else [].

(** Character [c] occurs in [s]. *)
Fixpoint contains_char (c : ascii) (s : string) : bool :=
  match s with
  | EmptyString => false
  | String c' s' => Ascii.eqb c' c || contains_char c s'
  end.

(** A modern file without any frame, and a listing that puts it first in
    path order. *)
Definition frameless_file : DicomFile :=
  mkDicomFile "scan/0.dcm" (Some (modern_dataset [])).

Definition frameless_first : list DicomFile :=
  [modern_file_a; frameless_file].



(** ** Facts about the error monad *)

Lemma bind_Ok_inv {A B : Type} (c : result A) (k : A -> result B) (b : B) :
  bind c k = Ok b -> exists a, c = Ok a /\ k a = Ok b.
Proof.
  destruct c as [a|e]; simpl; intros H; [eauto | discriminate].
Qed.

(** ** Facts about stable sorting *)

Section StableSortFacts.
Context {A : Type} (leb : A -> A -> bool).

Let le (a b : A) : Prop := leb a b = true.

Lemma insert_sorted_perm (x : A) (l : list A) :
  Permutation (x :: l) (insert_sorted leb x l).
Proof.
  induction l as [|y t IH]; simpl; [reflexivity|].
  destruct (leb x y); [reflexivity|].
  rewrite perm_swap. now apply perm_skip.
Qed.

Lemma stable_sort_perm (l : list A) : Permutation l (stable_sort leb l).
Proof.
  induction l as [|x t IH]; simpl; [constructor|].
  rewrite <- insert_sorted_perm. now apply perm_skip.
Qed.

Lemma stable_sort_length (l : list A) :
  List.length (stable_sort leb l) = List.length l.
Proof. symmetry. apply Permutation_length, stable_sort_perm. Qed.

Hypothesis leb_total : forall a b, leb a b = true \/ leb b a = true.
Hypothesis leb_trans :
  forall a b c, leb a b = true -> leb b c = true -> leb a c = true.

Lemma insert_sorted_sorted (x : A) (l : list A) :
  StronglySorted le l -> StronglySorted le (insert_sorted leb x l).
Proof.
  induction 1 as [|y t Hs IH Hy]; simpl.
  - repeat constructor.
  - destruct (leb x y) eqn:Hxy.
    + constructor; [now constructor|].
      constructor; [exact Hxy|].
      eapply Forall_impl; [|exact Hy].
      intros z Hz. exact (leb_trans _ _ _ Hxy Hz).
    + constructor; [exact IH|].
      eapply Permutation_Forall; [apply insert_sorted_perm|].
      constructor; [|exact Hy].
      destruct (leb_total x y) as [H|H]; [congruence | exact H].
Qed.

Lemma stable_sort_sorted (l : list A) : StronglySorted le (stable_sort leb l).
Proof.
  induction l as [|x t IH]; simpl; [constructor|].
  now apply insert_sorted_sorted.
Qed.

(** Insertion never moves an element past one it is tied with. *)
Lemma insert_sorted_filter (k x : A) (l : list A) :
  filter (tied leb k) (insert_sorted leb x l) = filter (tied leb k) (x :: l).
Proof.
  induction l as [|y t IH]; simpl; [reflexivity|].
  destruct (leb x y) eqn:Hxy; [reflexivity|].
  simpl. rewrite IH. simpl.
  destruct (tied leb k x) eqn:Hx, (tied leb k y) eqn:Hy; try reflexivity.
  unfold tied in Hx, Hy.
  apply andb_prop in Hx as [_ Hxk]. apply andb_prop in Hy as [Hky _].
  rewrite (leb_trans _ _ _ Hxk Hky) in Hxy. discriminate.
Qed.

Lemma stable_sort_filter (k : A) (l : list A) :
  filter (tied leb k) (stable_sort leb l) = filter (tied leb k) l.
Proof.
  induction l as [|x t IH]; simpl; [reflexivity|].
  rewrite insert_sorted_filter. simpl. now rewrite IH.
Qed.

Lemma StronglySorted_nth_error (l : list A) :
  StronglySorted le l ->
  forall i j a b, (i < j)%nat ->
    nth_error l i = Some a -> nth_error l j = Some b -> leb a b = true.
Proof.
  induction 1 as [|y t Hs IH Hy]; intros i j a b Hij Hi Hj.
  - destruct i; discriminate.
  - destruct j as [|j]; [lia|].
    simpl in Hj. destruct i as [|i]; simpl in Hi.
    + injection Hi as <-.
      rewrite Forall_forall in Hy. apply Hy.
      eapply nth_error_In; eassumption.
    + apply (IH i j); [lia | assumption | assumption].
Qed.
End StableSortFacts.

(** ** The order on strings *)

Lemma string_compare_refl (s : string) : String.compare s s = Eq.
Proof.
  induction s as [|c s IH]; simpl; [reflexivity|].
  unfold Ascii.compare. now rewrite N.compare_refl.
Qed.

Lemma string_compare_lt_trans (a b c : string) :
  String.compare a b = Lt -> String.compare b c = Lt -> String.compare a c = Lt.
Proof.
  revert b c. induction a as [|x a IH]; intros [|y b] [|z c]; simpl;
    try congruence.
  unfold Ascii.compare.
  destruct (N.compare_spec (N_of_ascii x) (N_of_ascii y)) as [Hxy|Hxy|Hxy];
    destruct (N.compare_spec (N_of_ascii y) (N_of_ascii z)) as [Hyz|Hyz|Hyz];
    try congruence; intros Hab Hbc.
  - rewrite Hxy, Hyz, N.compare_refl. eapply IH; eassumption.
  - rewrite Hxy. now apply N.compare_lt_iff in Hyz as ->.
  - rewrite <- Hyz. now apply N.compare_lt_iff in Hxy as ->.
  - assert (H : (N_of_ascii x < N_of_ascii z)%N) by lia.
    now apply N.compare_lt_iff in H as ->.
Qed.

Lemma string_leb_refl (s : string) : String.leb s s = true.
Proof. unfold String.leb. now rewrite string_compare_refl. Qed.

Lemma string_leb_trans (a b c : string) :
  String.leb a b = true -> String.leb b c = true -> String.leb a c = true.
Proof.
  unfold String.leb.
  destruct (String.compare a b) eqn:Hab; try discriminate;
    destruct (String.compare b c) eqn:Hbc; try discriminate; intros _ _.
  - apply String.compare_eq_iff in Hab, Hbc. subst.
    now rewrite string_compare_refl.
  - apply String.compare_eq_iff in Hab. subst. now rewrite Hbc.
  - apply String.compare_eq_iff in Hbc. subst. now rewrite Hab.
  - now rewrite (string_compare_lt_trans _ _ _ Hab Hbc).
Qed.

Lemma string_ltb_leb (a b : string) :
  String.ltb a b = negb (String.leb b a).
Proof.
  unfold String.ltb, String.leb. rewrite (String.compare_antisym b a).
  now destruct (String.compare a b).
Qed.

(** ** The order on rows *)

Lemma key_leb_total (a b : pyval) : key_leb a b = true \/ key_leb b a = true.
Proof.
  destruct a, b; simpl; auto using String.leb_total.
  destruct (Z.leb_spec z z0); [now left | right; apply Z.leb_le; lia].
Qed.

Lemma key_leb_trans (a b c : pyval) :
  key_leb a b = true -> key_leb b c = true -> key_leb a c = true.
Proof.
  destruct a, b, c; simpl; try congruence;
    [ rewrite !Z.leb_le; lia | apply string_leb_trans ].
Qed.

Lemma row_leb_total (r1 r2 : Row) : row_leb r1 r2 = true \/ row_leb r2 r1 = true.
Proof.
  unfold row_leb.
  destruct (key_leb_total (acquisition_date r1) (acquisition_date r2)) as [H|H];
    destruct (key_leb_total (acquisition_time r1) (acquisition_time r2)) as [H'|H'];
    rewrite H;
    destruct (key_leb (acquisition_date r2) (acquisition_date r1)) eqn:E;
    try rewrite E; try rewrite H; try rewrite H'; auto;
    destruct (key_leb (acquisition_date r1) (acquisition_date r2)); auto.
Qed.

Lemma row_leb_trans (r1 r2 r3 : Row) :
  row_leb r1 r2 = true -> row_leb r2 r3 = true -> row_leb r1 r3 = true.
Proof.
  unfold row_leb.
  destruct (key_leb (acquisition_date r1) (acquisition_date r2)) eqn:D12;
    [|discriminate].
  destruct (key_leb (acquisition_date r2) (acquisition_date r3)) eqn:D23;
    [|intros _; discriminate].
  rewrite (key_leb_trans _ _ _ D12 D23).
  destruct (key_leb (acquisition_date r3) (acquisition_date r1)) eqn:D31;
    [|reflexivity].
  rewrite (key_leb_trans _ _ _ D23 D31), (key_leb_trans _ _ _ D31 D12).
  apply key_leb_trans.
Qed.

Lemma has_key_tied (d t : string) (r : Row) :
  str_keyed r ->
  has_key d t r = tied row_leb (mkRow "" VNone (VStr t) (VStr d) VNone) r.
Proof.
  intros (d' & t' & Hd & Ht).
  unfold has_key, tied, row_leb. simpl. rewrite Hd, Ht. simpl.
  destruct (String.eqb_spec d d') as [->|Hne].
  - rewrite !string_leb_refl.
    destruct (String.eqb_spec t t') as [->|Hne]; simpl.
    + now rewrite !string_leb_refl.
    + destruct (String.leb t t') eqn:E1, (String.leb t' t) eqn:E2;
        try reflexivity.
      elim Hne. now apply String.leb_antisym.
  - simpl.
    destruct (String.leb d d') eqn:E1, (String.leb d' d) eqn:E2;
      try reflexivity; simpl; try apply andb_false_r.
    elim Hne. now apply String.leb_antisym.
Qed.

(** ** Properties of the exporter *)

(** C2.  On a table whose key columns hold strings, [sort_values] permutes
    the rows so that of two output rows with the same acquisition date the
    earlier has the smaller or equal acquisition time, of two with different
    dates the earlier has the smaller date whatever the times, and the rows
    with one and the same (date, time) key keep their input order. *)
Theorem sort_values_stable_by_date_then_time (df : list Row) :
  Forall str_keyed df ->
  Permutation df (sort_values df) /\
  (forall i j ri rj di ti dj tj,
      (i < j)%nat ->
      nth_error (sort_values df) i = Some ri ->
      nth_error (sort_values df) j = Some rj ->
      acquisition_date ri = VStr di -> acquisition_time ri = VStr ti ->
      acquisition_date rj = VStr dj -> acquisition_time rj = VStr tj ->
      (di = dj -> String.leb ti tj = true) /\
      (di <> dj -> String.ltb di dj = true)) /\
  (forall d t,
      filter (has_key d t) (sort_values df) = filter (has_key d t) df).
Proof.
  intros Hkeys. unfold sort_values.
  assert (Hperm := stable_sort_perm row_leb df).
  split; [exact Hperm|]. split.
  - intros i j ri rj di ti dj tj Hij Hi Hj Hdi Hti Hdj Htj.
    assert (Hle : row_leb ri rj = true).
    { eapply (StronglySorted_nth_error row_leb); try eassumption.
      apply stable_sort_sorted; [apply row_leb_total | apply row_leb_trans]. }
    unfold row_leb in Hle. rewrite Hdi, Hti, Hdj, Htj in Hle. simpl in Hle.
    destruct (String.leb di dj) eqn:E1; [|discriminate].
    split.
    + intros ->. now rewrite E1 in Hle.
    + intros Hne. rewrite string_ltb_leb.
      destruct (String.leb dj di) eqn:E2; [|reflexivity].
      elim Hne. now apply String.leb_antisym.
  - intros d t.
    rewrite (filter_ext_in _ _ _ (fun r Hr => has_key_tied d t r
               (proj1 (Forall_forall _ _)
                  (Permutation_Forall Hperm Hkeys) r Hr))).
    rewrite (filter_ext_in _ _ _ (fun r Hr => has_key_tied d t r
               (proj1 (Forall_forall _ _) Hkeys r Hr))).
    apply stable_sort_filter. apply row_leb_trans.
Qed.

(** ** Properties of the extractors *)

Lemma falls_through_true (dicom_type : Z) :
  falls_through dicom_type = true <-> dicom_type <> 1 /\ dicom_type <> 2.
Proof.
  unfold falls_through.
  destruct (Z.eqb_spec dicom_type 2), (Z.eqb_spec dicom_type 1); simpl;
    intuition (try discriminate; try lia).
Qed.

(** C6.  With a layout tag that is neither 1 (legacy) nor 2 (modern) each
    of the four extractors returns None and raises nothing, whatever the
    header and the frame index. *)
Theorem unrecognized_layout_returns_none
  (py_repr : pyval -> string) (c_dicom_header : pydict)
  (dicom_type frame_idx : Z) :
  dicom_type <> 1 -> dicom_type <> 2 ->
  get_nominal_interval c_dicom_header dicom_type frame_idx = Ok VNone /\
  get_acquisition_time c_dicom_header dicom_type frame_idx = Ok VNone /\
  get_acquisition_date c_dicom_header dicom_type frame_idx = Ok VNone /\
  get_nii_file_suffix py_repr c_dicom_header dicom_type frame_idx = Ok VNone.
Proof.
  intros H1 H2.
  unfold get_nominal_interval, get_acquisition_time, get_acquisition_date,
    get_nii_file_suffix.
  apply Z.eqb_neq in H1, H2. rewrite H1, H2. repeat split.
Qed.

Lemma unrecognized_layout_returns_none_at_0 :
  0 <> 1 /\ 0 <> 2 /\
  get_nominal_interval legacy_header 0 5 = Ok VNone /\
  get_acquisition_time legacy_header 0 5 = Ok VNone /\
  get_acquisition_date legacy_header 0 5 = Ok VNone /\
  get_nii_file_suffix blank_repr legacy_header 0 5 = Ok VNone.
Proof.
  refine (conj _ (conj _
    (unrecognized_layout_returns_none blank_repr legacy_header 0 5 _ _)));
    lia.
Defined.

Lemma string_append_assoc (a b c : string) :
  ((a ++ b) ++ c = a ++ (b ++ c))%string.
Proof.
  induction a as [|x a IH]; simpl; [reflexivity | now rewrite IH].
Qed.

(** C7.  The suffix of a header is the same under both layouts and for any
    two frame indices: the legacy call and the modern call agree on every
    header, also on those where they raise; and on a header that has the
    four series fields both return the suffix the specification words. *)
Theorem suffix_same_under_both_layouts
  (py_repr : pyval -> string) (c_dicom_header : pydict) (i j : Z) :
  get_nii_file_suffix py_repr c_dicom_header 1 i =
    get_nii_file_suffix py_repr c_dicom_header 2 j /\
  (forall description series_date study_time series_number t seconds,
      dict_get c_dicom_header "SeriesDescription" = Some (VStr description) ->
      dict_get c_dicom_header "SeriesDate" = Some (VStr series_date) ->
      dict_get c_dicom_header "StudyTime" = Some study_time ->
      py_float study_time = Ok t ->
      py_round t = Ok seconds ->
      dict_get c_dicom_header "SeriesNumber" = Some series_number ->
      get_nii_file_suffix py_repr c_dicom_header 1 i =
        Ok (VStr (suffix_of_fields description series_date seconds
                    (py_str py_repr series_number))) /\
      get_nii_file_suffix py_repr c_dicom_header 2 j =
        Ok (VStr (suffix_of_fields description series_date seconds
                    (py_str py_repr series_number)))).
Proof.
  split; [reflexivity|].
  intros description series_date study_time series_number t seconds
    Hdesc Hdate Htime Hfloat Hround Hnum.
  assert (H : get_nii_file_suffix py_repr c_dicom_header 1 i =
              Ok (VStr (suffix_of_fields description series_date seconds
                          (py_str py_repr series_number)))).
  { unfold get_nii_file_suffix, dict_getitem. cbn [Z.eqb Pos.eqb].
    rewrite Hdesc, Hdate, Htime, Hnum. cbn [bind str_concat].
    rewrite Hfloat. cbn [bind]. rewrite Hround. cbn [bind str_concat py_str].
    unfold suffix_of_fields. cbn [String.concat].
    now rewrite !string_append_assoc. }
  split; [exact H | exact H].
Qed.

Lemma suffix_same_on_legacy_header :
  get_nii_file_suffix blank_repr legacy_header 1 0 =
    get_nii_file_suffix blank_repr legacy_header 2 4 /\
  get_nii_file_suffix blank_repr legacy_header 1 0 =
    Ok (VStr (suffix_of_fields "DTI SAX" "20230101" 143022 "7")) /\
  get_nii_file_suffix blank_repr legacy_header 2 4 =
    Ok (VStr (suffix_of_fields "DTI SAX" "20230101" 143022 "7")).
Proof.
  destruct (suffix_same_under_both_layouts blank_repr legacy_header 0 4)
    as (Heq & Hspec).
  exact (conj Heq
           (Hspec "DTI SAX" "20230101" (VStr "143022.5") (VInt 7)
                  (S754_finite false 4914215680737280 (-35)) 143022
                  eq_refl eq_refl eq_refl eq_refl eq_refl eq_refl)).
Defined.

(** C8.  Under the legacy layout none of the four extractors looks at the
    frame index: two calls that differ in the index only return the same. *)
Theorem legacy_ignores_frame_index
  (py_repr : pyval -> string) (c_dicom_header : pydict) (i j : Z) :
  get_nominal_interval c_dicom_header 1 i =
    get_nominal_interval c_dicom_header 1 j /\
  get_acquisition_time c_dicom_header 1 i =
    get_acquisition_time c_dicom_header 1 j /\
  get_acquisition_date c_dicom_header 1 i =
    get_acquisition_date c_dicom_header 1 j /\
  get_nii_file_suffix py_repr c_dicom_header 1 i =
    get_nii_file_suffix py_repr c_dicom_header 1 j.
Proof. repeat split. Qed.

(** C1 as the code has it.  For the legacy header of the scenario one
    assembly step yields the row (base name of the file, 850.0, "143025",
    "20230101", "DTI_SAX_20230101143022_7"): the study time 143022.5 lies
    halfway between two seconds and [round] takes the even one, 143022. *)
Theorem legacy_scenario_row
  (py_repr : pyval -> string) (file_path : string) (frame_idx : Z) :
  make_row py_repr file_path legacy_header 1 frame_idx =
    Ok (mkRow (basename file_path) (VFloat float_850) (VStr "143025")
              (VStr "20230101") (VStr "DTI_SAX_20230101143022_7")) /\
  float_of_int 850 = Ok float_850 /\
  py_round float_850 = Ok 850 /\
  (t <- py_float (VStr "143022.5") ;; py_round t) = Ok 143022.
Proof. repeat split. Qed.

(** C1 as the specification words it fails: the suffix of the row does
    not end in 143023_7. *)
Lemma legacy_scenario_suffix_is_not_143023 :
  make_row blank_repr "IM_0001.dcm" legacy_header 1 0 <>
    Ok (mkRow "IM_0001.dcm" (VFloat float_850) (VStr "143025")
              (VStr "20230101") (VStr "DTI_SAX_20230101143023_7")).
Proof. vm_compute. discriminate. Qed.

Example sort_values_sample :
  map file_name (sort_values unsorted_table) =
    ["b.dcm"; "a.dcm"; "c.dcm"; "d.dcm"].
Proof. reflexivity. Qed.

Example sort_values_int_keys :
  map file_name
      (sort_values
         [ mkRow "b.dcm" VNone (VInt 101500) (VInt 20230102) VNone;
           mkRow "c.dcm" VNone (VInt 235959) (VInt 20230101) VNone;
           mkRow "a.dcm" VNone (VInt 90000) (VInt 20230101) VNone ]) =
    ["a.dcm"; "c.dcm"; "b.dcm"].
Proof. reflexivity. Qed.

Lemma sort_values_stable_on_sample :
  Forall str_keyed unsorted_table /\
  (Permutation unsorted_table (sort_values unsorted_table) /\
   (forall i j ri rj di ti dj tj,
       (i < j)%nat ->
       nth_error (sort_values unsorted_table) i = Some ri ->
       nth_error (sort_values unsorted_table) j = Some rj ->
       acquisition_date ri = VStr di -> acquisition_time ri = VStr ti ->
       acquisition_date rj = VStr dj -> acquisition_time rj = VStr tj ->
       (di = dj -> String.leb ti tj = true) /\
       (di <> dj -> String.ltb di dj = true)) /\
   (forall d t,
       filter (has_key d t) (sort_values unsorted_table) =
       filter (has_key d t) unsorted_table)).
Proof.
  assert (H : Forall str_keyed unsorted_table).
  { repeat constructor; eexists; eexists; split; reflexivity. }
  exact (conj H (sort_values_stable_by_date_then_time unsorted_table H)).
Defined.

(** ** Properties of the flattener *)

Lemma dict_set_In (d : pydict) (k : string) (v : pyval) (k' : string) (v' : pyval) :
  In (k', v') (dict_set d k v) -> k' = k \/ In (k', v') d.
Proof.
  induction d as [|[k0 v0] d IH]; simpl.
  - intros [H|[]]. injection H as <- _. now left.
  - destruct (String.eqb_spec k0 k) as [->|Hne]; simpl.
    + intros [H|H]; [injection H as <- _; now left | now right; right].
    + intros [H|H]; [now right; left|].
      destruct (IH H) as [->|H']; [now left | now right; right].
Qed.

(** What the flattener does guarantee: every key of the header is the
    [keyword] of an element of the dataset, the empty string for one
    without public keyword, or one of the two keys added afterwards. *)
Lemma dictify_keys (ds : Dataset) (h : pydict) :
  dictify ds = Ok h ->
  forall k v, In (k, v) h ->
    k = "DiffusionBValue" \/ k = "DiffusionGradientDirection" \/
    exists e, In e (elems ds) /\ keyword e = k.
Proof.
  destruct ds as [es]. simpl. intros H.
  apply bind_Ok_inv in H as (out1 & Hloop & H).
  apply bind_Ok_inv in H as (out2 & H2 & H).
  apply bind_Ok_inv in H as (out3 & H3 & H).
  injection H as <-.
  assert (Hout1 : forall k v, In (k, v) out1 ->
            exists e, In e es /\ keyword e = k).
  { match type of Hloop with
    | ?loop es [] = _ =>
        assert (Hgen : forall es' out0 out,
                  loop es' out0 = Ok out ->
                  forall k v, In (k, v) out ->
                    In (k, v) out0 \/ exists e, In e es' /\ keyword e = k)
    end.
    { induction es' as [|[t kw vr v] es' IH]; intros out0 out Hl k0 v0 Hin.
      - injection Hl as <-. now left.
      - destruct (negb (String.eqb vr "SQ")).
        + destruct (IH _ _ Hl _ _ Hin) as [H0|(e & He & Hk)].
          * apply dict_set_In in H0 as [->|H0]; [right | now left].
            eexists; split; [now left | reflexivity].
          * right. exists e. split; [now right | exact Hk].
        + destruct v; try discriminate.
          apply bind_Ok_inv in Hl as (l & _ & Hl).
          destruct (IH _ _ Hl _ _ Hin) as [H0|(e & He & Hk)].
          * apply dict_set_In in H0 as [->|H0]; [right | now left].
            eexists; split; [now left | reflexivity].
          * right. exists e. split; [now right | exact Hk]. }
    intros k v Hin. destruct (Hgen _ _ _ Hloop _ _ Hin) as [[]|H0]. exact H0. }
  assert (Hout2 : forall k v, In (k, v) out2 ->
            k = "DiffusionBValue" \/ exists e, In e es /\ keyword e = k).
  { destruct (has_tag (0x0019, 0x100C) _).
    - apply bind_Ok_inv in H2 as (v0 & _ & H2). injection H2 as <-.
      intros k v Hin. apply dict_set_In in Hin as [->|Hin]; eauto.
    - injection H2 as <-. eauto. }
  intros k v Hin.
  destruct (has_tag (0x0019, 0x100E) _).
  - apply bind_Ok_inv in H3 as (v0 & _ & H3). injection H3 as <-.
    apply dict_set_In in Hin as [->|Hin]; [auto|].
    destruct (Hout2 _ _ Hin); auto.
  - injection H3 as <-. destruct (Hout2 _ _ Hin); auto.
Qed.

(** C3 fails on the code: the loop of [dictify] skips nothing.  An element
    without public keyword has the empty string as [keyword] and is stored
    under that key; here the vendor element ends up in the header beside
    the b-value added for tag (0019,100C). *)
Theorem dictify_keeps_private_element :
  dictify mixed_dataset =
    Ok [ ("SeriesDescription", VStr "DTI SAX");
         ("", VStr "vendor data");
         ("DiffusionBValue", VInt 1000) ] /\
  ~ (forall h, dictify mixed_dataset = Ok h ->
               keys_public_or_synthetic mixed_dataset h).
Proof.
  split; [reflexivity|].
  intros H. specialize (H _ eq_refl "" (VStr "vendor data")).
  destruct H as [H|[H|(e & He & Hk)]]; try discriminate.
  - simpl. auto.
  - simpl in He. destruct He as [<-|[<-|[<-|[]]]]; discriminate.
Qed.

(** ** Properties of the layout check and of the run *)

Lemma classify_shape (ds : Dataset) (dicom_type n : Z) :
  classify ds = Ok (dicom_type, n) ->
  (dicom_type = 1 \/ dicom_type = 2) /\ 0 <= n.
Proof.
  unfold classify.
  destruct (find_keyword _ ds) as [e|].
  - destruct (value e); simpl; intros H; inversion H; subst; split; auto; lia.
  - intros H; inversion H; subst. split; auto; lia.
Qed.

Lemma run_unfold (py_repr : pyval -> string) (matched : list DicomFile)
  (first : DicomFile) (ds : Dataset) :
  py_index (sort_files matched) 0 = Ok first ->
  dcmread first = Ok ds ->
  get_data_from_dicoms_and_export py_repr matched =
    (' (dicom_type, n_images_per_file) <- classify ds ;;
     df <- file_loop py_repr dicom_type n_images_per_file
             (sort_files matched) [] ;;
     Ok (sort_values df)).
Proof.
  intros H1 H2. unfold get_data_from_dicoms_and_export.
  rewrite H1. simpl. rewrite H2. reflexivity.
Qed.

(** C9.  With no matching file the run raises IndexError on reading the
    first file and writes no table. *)
Theorem empty_directory_aborts (py_repr : pyval -> string) :
  get_data_from_dicoms_and_export py_repr [] = Raise IndexError.
Proof. reflexivity. Qed.

(** ** Properties of the assembly *)

Lemma frame_loop_rows (py_repr : pyval -> string) (file_path : string)
  (h : pydict) (dicom_type : Z) (frames : list Z) :
  forall df0 df,
    frame_loop py_repr file_path h dicom_type frames df0 = Ok df ->
    exists rows,
      df = (df0 ++ rows)%list /\
      Forall2 (fun i r => make_row py_repr file_path h dicom_type i = Ok r)
              frames rows.
Proof.
  induction frames as [|i frames IH]; simpl; intros df0 df H.
  - injection H as <-. exists []. split; [now rewrite app_nil_r | constructor].
  - apply bind_Ok_inv in H as (row & Hrow & H).
    apply IH in H as (rows & -> & Hrows).
    exists (row :: rows). split; [now rewrite <- app_assoc|].
    now constructor.
Qed.

Lemma file_loop_rows (py_repr : pyval -> string) (dicom_type n : Z)
  (files : list DicomFile) :
  forall df0 df,
    file_loop py_repr dicom_type n files df0 = Ok df ->
    exists rows,
      df = (df0 ++ rows)%list /\
      Forall2 (row_of_pair py_repr dicom_type)
              (list_prod files (range n)) rows.
Proof.
  induction files as [|f files IH]; simpl; intros df0 df H.
  - injection H as <-. exists []. split; [now rewrite app_nil_r | constructor].
  - apply bind_Ok_inv in H as (ds & Hds & H).
    apply bind_Ok_inv in H as (h & Hh & H).
    apply bind_Ok_inv in H as (df1 & Hdf1 & H).
    apply frame_loop_rows in Hdf1 as (rows1 & -> & Hrows1).
    apply IH in H as (rows2 & -> & Hrows2).
    exists (rows1 ++ rows2)%list. split; [now rewrite app_assoc|].
    apply Forall2_app; [|exact Hrows2].
    clear - Hds Hh Hrows1.
    induction Hrows1 as [|i r frames rows Hr _ IHrows]; simpl; constructor;
      [|exact IHrows].
    exists ds, h. auto.
Qed.

(** The loop over the files succeeds when every file parses and flattens
    and every frame of it yields a row. *)
Lemma frame_loop_succeeds (py_repr : pyval -> string) (file_path : string)
  (h : pydict) (dicom_type : Z) (frames : list Z) :
  Forall (fun i => exists r, make_row py_repr file_path h dicom_type i = Ok r)
         frames ->
  forall df0, exists df,
    frame_loop py_repr file_path h dicom_type frames df0 = Ok df.
Proof.
  induction 1 as [|i frames (r & Hr) _ IH]; simpl; intros df0.
  - eauto.
  - rewrite Hr. simpl. apply IH.
Qed.

Lemma file_loop_succeeds (py_repr : pyval -> string) (dicom_type n : Z)
  (files : list DicomFile) :
  Forall (fun f => exists ds h,
            dcmread f = Ok ds /\ dictify ds = Ok h /\
            Forall (fun i => exists r,
                      make_row py_repr (path f) h dicom_type i = Ok r)
                   (range n)) files ->
  forall df0, exists df,
    file_loop py_repr dicom_type n files df0 = Ok df.
Proof.
  induction 1 as [|f files (ds & h & Hds & Hh & Hrows) _ IH]; intros df0.
  - simpl. eauto.
  - cbn [file_loop]. rewrite Hds. cbn [bind]. rewrite Hh. cbn [bind].
    destruct (frame_loop_succeeds _ _ _ _ _ Hrows df0) as (df1 & ->).
    cbn [bind]. apply IH.
Qed.

Lemma range_length (n : Z) : 0 <= n -> Z.of_nat (List.length (range n)) = n.
Proof.
  intros Hn. unfold range. rewrite length_map, length_seq. lia.
Qed.

(** C4.  A run that writes a table has classified the first file in path
    order as (layout, K) and has, with that one answer, built one row for
    each pair of a file and a frame index below K, files in path order and
    frames in ascending order; so the assembled table and the sorted table
    that is exported both have (number of files) * K rows. *)
Theorem table_has_one_row_per_file_and_frame
  (py_repr : pyval -> string) (matched : list DicomFile) (table : list Row) :
  get_data_from_dicoms_and_export py_repr matched = Ok table ->
  exists first ds dicom_type K df,
    py_index (sort_files matched) 0 = Ok first /\
    dcmread first = Ok ds /\
    classify ds = Ok (dicom_type, K) /\
    file_loop py_repr dicom_type K (sort_files matched) [] = Ok df /\
    table = sort_values df /\
    Forall2 (row_of_pair py_repr dicom_type)
            (list_prod (sort_files matched) (range K)) df /\
    Z.of_nat (List.length df) = Z.of_nat (List.length matched) * K /\
    Z.of_nat (List.length table) = Z.of_nat (List.length matched) * K.
Proof.
  unfold get_data_from_dicoms_and_export. intros H.
  apply bind_Ok_inv in H as (first & Hfirst & H).
  apply bind_Ok_inv in H as (ds & Hds & H).
  apply bind_Ok_inv in H as ([dicom_type K] & Hcl & H).
  apply bind_Ok_inv in H as (df & Hdf & H).
  injection H as <-.
  exists first, ds, dicom_type, K, df.
  destruct (file_loop_rows _ _ _ _ _ _ Hdf) as (rows & Heq & Hrows).
  simpl in Heq. subst rows.
  assert (Hlen : Z.of_nat (List.length df) = Z.of_nat (List.length matched) * K).
  { rewrite <- (Forall2_length Hrows), length_prod.
    unfold sort_files. rewrite stable_sort_length, Nat2Z.inj_mul.
    rewrite range_length; [reflexivity|].
    now destruct (classify_shape _ _ _ Hcl). }
  repeat (split; [assumption || reflexivity|]).
  unfold sort_values. now rewrite stable_sort_length.
Qed.

Lemma modern_run_has_six_rows :
  get_data_from_dicoms_and_export blank_repr modern_files = Ok modern_table /\
  exists first ds dicom_type K df,
    py_index (sort_files modern_files) 0 = Ok first /\
    dcmread first = Ok ds /\
    classify ds = Ok (dicom_type, K) /\
    file_loop blank_repr dicom_type K (sort_files modern_files) [] = Ok df /\
    modern_table = sort_values df /\
    Forall2 (row_of_pair blank_repr dicom_type)
            (list_prod (sort_files modern_files) (range K)) df /\
    Z.of_nat (List.length df) = Z.of_nat (List.length modern_files) * K /\
    Z.of_nat (List.length modern_table) =
      Z.of_nat (List.length modern_files) * K.
Proof.
  assert (H : get_data_from_dicoms_and_export blank_repr modern_files =
              Ok modern_table) by (vm_compute; reflexivity).
  exact (conj H (table_has_one_row_per_file_and_frame
                   blank_repr modern_files modern_table H)).
Defined.

(** C5.  The layout check answers (2, number of items of the sequence) for
    a dataset that has the PerFrameFunctionalGroupsSequence element and
    (1, 1) for one that has not; the run makes the check once, on the first
    file in path order, and hands its answer to the loop over all files;
    and the loop uses that one answer for every file: in a run that writes
    a table, the row of each file and each frame index below the count of
    the first file is built under the tag of the first file, whatever
    layout and frame count the other files have. *)
Theorem layout_checked_once_on_first_file (py_repr : pyval -> string) :
  (forall ds e items,
      find_keyword "PerFrameFunctionalGroupsSequence" ds = Some e ->
      value e = VSequence items ->
      classify ds = Ok (2, Z.of_nat (List.length items))) /\
  (forall ds,
      find_keyword "PerFrameFunctionalGroupsSequence" ds = None ->
      classify ds = Ok (1, 1)) /\
  (forall matched first ds,
      py_index (sort_files matched) 0 = Ok first ->
      dcmread first = Ok ds ->
      get_data_from_dicoms_and_export py_repr matched =
        (' (dicom_type, n_images_per_file) <- classify ds ;;
         df <- file_loop py_repr dicom_type n_images_per_file
                 (sort_files matched) [] ;;
         Ok (sort_values df))) /\
  (forall matched first ds dicom_type n_images_per_file df,
      py_index (sort_files matched) 0 = Ok first ->
      dcmread first = Ok ds ->
      classify ds = Ok (dicom_type, n_images_per_file) ->
      file_loop py_repr dicom_type n_images_per_file
        (sort_files matched) [] = Ok df ->
      Forall2 (row_of_pair py_repr dicom_type)
              (list_prod (sort_files matched) (range n_images_per_file))
              df /\
      get_data_from_dicoms_and_export py_repr matched =
        Ok (sort_values df)) /\
  (forall matched table,
      get_data_from_dicoms_and_export py_repr matched = Ok table ->
      exists first ds dicom_type n_images_per_file df,
        py_index (sort_files matched) 0 = Ok first /\
        dcmread first = Ok ds /\
        classify ds = Ok (dicom_type, n_images_per_file) /\
        Forall2 (row_of_pair py_repr dicom_type)
                (list_prod (sort_files matched) (range n_images_per_file))
                df /\
        table = sort_values df).
Proof.
  split; [|split; [|split; [|split]]].
  - intros ds e items He Hv. unfold classify. rewrite He, Hv. reflexivity.
  - intros ds He. unfold classify. rewrite He. reflexivity.
  - intros matched first ds. apply run_unfold.
  - intros matched first ds dicom_type n df Hfirst Hds Hcl Hdf. split.
    + destruct (file_loop_rows _ _ _ _ _ _ Hdf) as (rows & Heq & Hrows).
      simpl in Heq. now subst rows.
    + rewrite (run_unfold py_repr matched first ds Hfirst Hds), Hcl.
      cbn [bind]. rewrite Hdf. reflexivity.
  - intros matched table H.
    unfold get_data_from_dicoms_and_export in H.
    apply bind_Ok_inv in H as (first & Hfirst & H).
    apply bind_Ok_inv in H as (ds & Hds & H).
    apply bind_Ok_inv in H as ([dicom_type n] & Hcl & H).
    apply bind_Ok_inv in H as (df & Hdf & H).
    injection H as <-.
    exists first, ds, dicom_type, n, df.
    repeat (split; [assumption|]). split; [|reflexivity].
    destruct (file_loop_rows _ _ _ _ _ _ Hdf) as (rows & Heq & Hrows).
    simpl in Heq. now subst rows.
Qed.

Lemma layout_checked_once_on_samples :
  classify modern_dataset_a = Ok (2, 3) /\
  classify mixed_dataset = Ok (1, 1) /\
  get_data_from_dicoms_and_export blank_repr modern_files =
    (' (dicom_type, n_images_per_file) <- classify modern_dataset_a ;;
     df <- file_loop blank_repr dicom_type n_images_per_file
             (sort_files modern_files) [] ;;
     Ok (sort_values df)) /\
  (py_index (sort_files frameless_first) 0 = Ok frameless_file /\
   dcmread frameless_file = Ok (modern_dataset []) /\
   classify (modern_dataset []) = Ok (2, 0) /\
   file_loop blank_repr 2 0 (sort_files frameless_first) [] = Ok [] /\
   Forall2 (row_of_pair blank_repr 2)
           (list_prod (sort_files frameless_first) (range 0)) [] /\
   get_data_from_dicoms_and_export blank_repr frameless_first =
     Ok (sort_values [])) /\
  (get_data_from_dicoms_and_export blank_repr modern_files =
     Ok modern_table /\
   exists first ds dicom_type n_images_per_file df,
     py_index (sort_files modern_files) 0 = Ok first /\
     dcmread first = Ok ds /\
     classify ds = Ok (dicom_type, n_images_per_file) /\
     Forall2 (row_of_pair blank_repr dicom_type)
             (list_prod (sort_files modern_files)
                        (range n_images_per_file)) df /\
     modern_table = sort_values df).
Proof.
  destruct (layout_checked_once_on_first_file blank_repr)
    as (Hm & Hl & Hrun & Hloop & Htable).
  split; [|split; [|split; [|split]]].
  - exact (Hm modern_dataset_a _ _ eq_refl eq_refl).
  - exact (Hl mixed_dataset eq_refl).
  - exact (Hrun modern_files modern_file_a modern_dataset_a eq_refl eq_refl).
  - assert (H1 : py_index (sort_files frameless_first) 0 = Ok frameless_file)
      by reflexivity.
    assert (H2 : dcmread frameless_file = Ok (modern_dataset []))
      by reflexivity.
    assert (H3 : classify (modern_dataset []) = Ok (2, 0)) by reflexivity.
    assert (H4 : file_loop blank_repr 2 0 (sort_files frameless_first) [] =
                 Ok []) by (vm_compute; reflexivity).
    exact (conj H1 (conj H2 (conj H3 (conj H4
             (Hloop frameless_first frameless_file (modern_dataset []) 2 0 []
                    H1 H2 H3 H4))))).
  - assert (H : get_data_from_dicoms_and_export blank_repr modern_files =
                Ok modern_table) by (vm_compute; reflexivity).
    exact (conj H (Htable modern_files modern_table H)).
Defined.

Lemma recognized_nominal_interval_is_float
  (c_dicom_header : pydict) (dicom_type frame_idx : Z) (v : pyval) :
  dicom_type = 1 \/ dicom_type = 2 ->
  get_nominal_interval c_dicom_header dicom_type frame_idx = Ok v ->
  exists f, v = VFloat f.
Proof.
  intros [-> | ->] H; unfold get_nominal_interval in H;
    cbn [Z.eqb Pos.eqb] in H;
    repeat (apply bind_Ok_inv in H as (? & _ & H));
    injection H as <-; eauto.
Qed.

Lemma recognized_suffix_is_str
  (py_repr : pyval -> string) (c_dicom_header : pydict)
  (dicom_type frame_idx : Z) (v : pyval) :
  dicom_type = 1 \/ dicom_type = 2 ->
  get_nii_file_suffix py_repr c_dicom_header dicom_type frame_idx = Ok v ->
  exists s, v = VStr s.
Proof.
  intros [-> | ->] H; unfold get_nii_file_suffix in H;
    cbn [Z.eqb Pos.eqb] in H;
    repeat (apply bind_Ok_inv in H as (? & _ & H));
    injection H as <-; eauto.
Qed.

Lemma recognized_extractors_read_the_header
  (py_repr : pyval -> string) (c_dicom_header : pydict)
  (dicom_type frame_idx : Z) :
  dicom_type = 1 \/ dicom_type = 2 ->
  dict_get c_dicom_header "PerFrameFunctionalGroupsSequence" = None ->
  dict_get c_dicom_header "NominalInterval" = None ->
  dict_get c_dicom_header "AcquisitionTime" = None ->
  dict_get c_dicom_header "AcquisitionDate" = None ->
  dict_get c_dicom_header "SeriesDescription" = None ->
  get_nominal_interval c_dicom_header dicom_type frame_idx = Raise KeyError /\
  get_acquisition_time c_dicom_header dicom_type frame_idx = Raise KeyError /\
  get_acquisition_date c_dicom_header dicom_type frame_idx = Raise KeyError /\
  get_nii_file_suffix py_repr c_dicom_header dicom_type frame_idx =
    Raise KeyError.
Proof.
  intros Ht Hp Hn Hat Had Hsd.
  unfold get_nominal_interval, get_acquisition_time, get_acquisition_date,
    get_nii_file_suffix, dict_getitem.
  destruct Ht as [-> | ->]; cbn [Z.eqb Pos.eqb];
    rewrite ?Hp, ?Hn, ?Hat, ?Had, ?Hsd; repeat split.
Qed.

Lemma make_row_fields (py_repr : pyval -> string) (file_path : string)
  (h : pydict) (dicom_type frame_idx : Z) (r : Row) :
  make_row py_repr file_path h dicom_type frame_idx = Ok r ->
  get_nominal_interval h dicom_type frame_idx = Ok (nominal_interval r) /\
  get_acquisition_time h dicom_type frame_idx = Ok (acquisition_time r) /\
  get_acquisition_date h dicom_type frame_idx = Ok (acquisition_date r) /\
  get_nii_file_suffix py_repr h dicom_type frame_idx =
    Ok (nii_file_suffix r).
Proof.
  unfold make_row. intros H.
  apply bind_Ok_inv in H as (interval & H1 & H).
  apply bind_Ok_inv in H as (time & H2 & H).
  apply bind_Ok_inv in H as (date & H3 & H).
  apply bind_Ok_inv in H as (suffix & H4 & H).
  injection H as <-. simpl. auto.
Qed.

(** C10.  Whatever the first dataset, the layout check answers 1 or 2, so
    the tag is not one on which an extractor falls through; the run passes
    that tag to the loop over the files, and every row the loop builds is
    built by the extractors under that tag.  Under that tag no extractor
    returns without reading the header (on a header without the fields
    each raises KeyError rather than returning None), and every row of the
    table has a float as nominal interval and a string as suffix. *)
Theorem classified_layout_is_recognized
  (py_repr : pyval -> string) (matched : list DicomFile)
  (first : DicomFile) (ds : Dataset) (dicom_type K : Z) :
  py_index (sort_files matched) 0 = Ok first ->
  dcmread first = Ok ds ->
  classify ds = Ok (dicom_type, K) ->
  (dicom_type = 1 \/ dicom_type = 2) /\
  falls_through dicom_type = false /\
  get_data_from_dicoms_and_export py_repr matched =
    (df <- file_loop py_repr dicom_type K (sort_files matched) [] ;;
     Ok (sort_values df)) /\
  (forall df,
      file_loop py_repr dicom_type K (sort_files matched) [] = Ok df ->
      Forall2 (row_of_pair py_repr dicom_type)
              (list_prod (sort_files matched) (range K)) df) /\
  (forall c_dicom_header frame_idx,
      dict_get c_dicom_header "PerFrameFunctionalGroupsSequence" = None ->
      dict_get c_dicom_header "NominalInterval" = None ->
      dict_get c_dicom_header "AcquisitionTime" = None ->
      dict_get c_dicom_header "AcquisitionDate" = None ->
      dict_get c_dicom_header "SeriesDescription" = None ->
      get_nominal_interval c_dicom_header dicom_type frame_idx =
        Raise KeyError /\
      get_acquisition_time c_dicom_header dicom_type frame_idx =
        Raise KeyError /\
      get_acquisition_date c_dicom_header dicom_type frame_idx =
        Raise KeyError /\
      get_nii_file_suffix py_repr c_dicom_header dicom_type frame_idx =
        Raise KeyError) /\
  (forall df,
      file_loop py_repr dicom_type K (sort_files matched) [] = Ok df ->
      Forall (fun r => (exists f, nominal_interval r = VFloat f) /\
                       (exists s, nii_file_suffix r = VStr s)) df).
Proof.
  intros Hfirst Hds Hcl.
  destruct (classify_shape _ _ _ Hcl) as [Htag _].
  split; [exact Htag|]. split; [|split; [|split; [|split]]].
  - destruct Htag as [-> | ->]; reflexivity.
  - rewrite (run_unfold py_repr matched first ds Hfirst Hds), Hcl.
    reflexivity.
  - intros df Hdf.
    destruct (file_loop_rows _ _ _ _ _ _ Hdf) as (rows & Heq & Hrows).
    simpl in Heq. now subst rows.
  - intros h i. now apply recognized_extractors_read_the_header.
  - intros df Hdf.
    destruct (file_loop_rows _ _ _ _ _ _ Hdf) as (rows & Heq & Hrows).
    simpl in Heq. subst rows.
    clear Hdf. induction Hrows as [|fi r pairs rows Hr _ IH]; constructor;
      [|exact IH].
    destruct Hr as (ds' & h & _ & _ & Hmk).
    apply make_row_fields in Hmk as (Hni & _ & _ & Hsuf).
    split.
    + exact (recognized_nominal_interval_is_float _ _ _ _ Htag Hni).
    + exact (recognized_suffix_is_str _ _ _ _ _ Htag Hsuf).
Qed.

Lemma modern_files_layout_is_recognized :
  py_index (sort_files modern_files) 0 = Ok modern_file_a /\
  dcmread modern_file_a = Ok modern_dataset_a /\
  classify modern_dataset_a = Ok (2, 3) /\
  (2 = 1 \/ 2 = 2) /\
  falls_through 2 = false /\
  get_data_from_dicoms_and_export blank_repr modern_files =
    (df <- file_loop blank_repr 2 3 (sort_files modern_files) [] ;;
     Ok (sort_values df)) /\
  (forall df,
      file_loop blank_repr 2 3 (sort_files modern_files) [] = Ok df ->
      Forall2 (row_of_pair blank_repr 2)
              (list_prod (sort_files modern_files) (range 3)) df) /\
  (forall c_dicom_header frame_idx,
      dict_get c_dicom_header "PerFrameFunctionalGroupsSequence" = None ->
      dict_get c_dicom_header "NominalInterval" = None ->
      dict_get c_dicom_header "AcquisitionTime" = None ->
      dict_get c_dicom_header "AcquisitionDate" = None ->
      dict_get c_dicom_header "SeriesDescription" = None ->
      get_nominal_interval c_dicom_header 2 frame_idx = Raise KeyError /\
      get_acquisition_time c_dicom_header 2 frame_idx = Raise KeyError /\
      get_acquisition_date c_dicom_header 2 frame_idx = Raise KeyError /\
      get_nii_file_suffix blank_repr c_dicom_header 2 frame_idx =
        Raise KeyError) /\
  (forall df,
      file_loop blank_repr 2 3 (sort_files modern_files) [] = Ok df ->
      Forall (fun r => (exists f, nominal_interval r = VFloat f) /\
                       (exists s, nii_file_suffix r = VStr s)) df).
Proof.
  assert (H1 : py_index (sort_files modern_files) 0 = Ok modern_file_a)
    by reflexivity.
  assert (H2 : dcmread modern_file_a = Ok modern_dataset_a) by reflexivity.
  assert (H3 : classify modern_dataset_a = Ok (2, 3)) by reflexivity.
  exact (conj H1 (conj H2 (conj H3
           (classified_layout_is_recognized blank_repr modern_files
              modern_file_a modern_dataset_a 2 3 H1 H2 H3)))).
Defined.

(** ** More on dictionaries and the flattener *)

Lemma dict_get_set_same (d : pydict) (k : string) (v : pyval) :
  dict_get (dict_set d k v) k = Some v.
Proof.
  induction d as [|[k0 v0] d IH]; simpl.
  - now rewrite String.eqb_refl.
  - destruct (String.eqb k0 k) eqn:E; simpl; rewrite E; [reflexivity | exact IH].
Qed.

Lemma dict_get_set_other (d : pydict) (k k' : string) (v : pyval) :
  k' <> k -> dict_get (dict_set d k v) k' = dict_get d k'.
Proof.
  intros Hne. induction d as [|[k0 v0] d IH]; simpl.
  - destruct (String.eqb_spec k k'); [congruence | reflexivity].
  - destruct (String.eqb_spec k0 k) as [->|Hk]; simpl.
    + destruct (String.eqb_spec k k'); [congruence | reflexivity].
    + destruct (String.eqb k0 k'); [reflexivity | exact IH].
Qed.

Lemma dict_set_keys (d : pydict) (k : string) (v : pyval) (k' : string) :
  In k' (map fst (dict_set d k v)) -> k' = k \/ In k' (map fst d).
Proof.
  induction d as [|[k0 v0] d IH]; simpl.
  - intros [<-|[]]. now left.
  - destruct (String.eqb_spec k0 k) as [->|Hk]; simpl.
    + intros [<-|H]; [now left | now right; right].
    + intros [<-|H]; [now right; left|].
      destruct (IH H) as [->|H']; [now left | now right; right].
Qed.

Lemma dict_set_NoDup (d : pydict) (k : string) (v : pyval) :
  NoDup (map fst d) -> NoDup (map fst (dict_set d k v)).
Proof.
  induction d as [|[k0 v0] d IH]; simpl; intros Hd.
  - repeat constructor. intros [].
  - inversion Hd as [|? ? Hnin Hd']; subst.
    destruct (String.eqb_spec k0 k) as [->|Hk]; simpl.
    + now constructor.
    + constructor; [|now apply IH].
      intros Hin. apply dict_set_keys in Hin as [->|Hin]; congruence.
Qed.

Lemma dictify_loop_step (e : DataElement) (rest : list DataElement)
  (output : pydict) :
  dictify_loop (e :: rest) output =
    (v <- flatten_elem e ;;
     dictify_loop rest (dict_set output (keyword e) v)).
Proof. reflexivity. Qed.

(** [dictify] is its loop followed by the two private look-ups. *)
Lemma dictify_unfold (ds : Dataset) :
  dictify ds =
    (output <- dictify_loop (elems ds) [] ;;
     output <-
       (if has_tag (0x0019, 0x100C) ds
        then v <- tag_value (0x0019, 0x100C) ds ;;
             Ok (dict_set output "DiffusionBValue" v)
        else Ok output) ;;
     output <-
       (if has_tag (0x0019, 0x100E) ds
        then v <- tag_value (0x0019, 0x100E) ds ;;
             Ok (dict_set output "DiffusionGradientDirection" v)
        else Ok output) ;;
     Ok output).
Proof.
  destruct ds as [es]. cbn [dictify elems]. f_equal.
  generalize (@nil (string * pyval)) as out.
  induction es as [|[t k vr v] es IH]; intros out; [reflexivity|].
  rewrite dictify_loop_step. unfold flatten_elem. cbn [VR value].
  destruct (negb (String.eqb vr "SQ")); cbn [bind]; [apply IH|].
  destruct v; try reflexivity.
  fold dictify_items. destruct (dictify_items items); cbn [bind];
    [apply IH | reflexivity].
Qed.

Lemma dictify_items_Forall2 (items : list Dataset) :
  forall l, dictify_items items = Ok l ->
    Forall2 (fun item v => exists d, dictify item = Ok d /\ v = VDict d)
            items l.
Proof.
  induction items as [|item items IH]; simpl; intros l H.
  - injection H as <-. constructor.
  - apply bind_Ok_inv in H as (d & Hd & H).
    apply bind_Ok_inv in H as (r & Hr & H).
    injection H as <-. constructor; [eauto | now apply IH].
Qed.

Lemma dictify_loop_lookup (es : list DataElement) :
  forall out0 out, dictify_loop es out0 = Ok out ->
  forall k,
    match last_with_keyword k es with
    | Some e => exists v, flatten_elem e = Ok v /\ dict_get out k = Some v
    | None => dict_get out k = dict_get out0 k
    end.
Proof.
  induction es as [|e es IH]; intros out0 out H k.
  - injection H as <-. reflexivity.
  - rewrite dictify_loop_step in H.
    apply bind_Ok_inv in H as (v & Hv & H).
    specialize (IH _ _ H k). cbn [last_with_keyword].
    destruct (last_with_keyword k es) as [e'|]; [exact IH|].
    rewrite IH.
    destruct (String.eqb_spec (keyword e) k) as [<-|Hne].
    + exists v. split; [exact Hv | apply dict_get_set_same].
    + apply dict_get_set_other. congruence.
Qed.

Lemma dictify_loop_NoDup (es : list DataElement) :
  forall out0 out, dictify_loop es out0 = Ok out ->
    NoDup (map fst out0) -> NoDup (map fst out).
Proof.
  induction es as [|e es IH]; intros out0 out H Hnd.
  - now injection H as <-.
  - rewrite dictify_loop_step in H.
    apply bind_Ok_inv in H as (v & _ & H).
    eapply IH; [exact H | now apply dict_set_NoDup].
Qed.

Lemma dictify_stages (ds : Dataset) (h : pydict) :
  dictify ds = Ok h ->
  exists out1 out2,
    dictify_loop (elems ds) [] = Ok out1 /\
    (if has_tag (0x0019, 0x100C) ds
     then v <- tag_value (0x0019, 0x100C) ds ;;
          Ok (dict_set out1 "DiffusionBValue" v)
     else Ok out1) = Ok out2 /\
    (if has_tag (0x0019, 0x100E) ds
     then v <- tag_value (0x0019, 0x100E) ds ;;
          Ok (dict_set out2 "DiffusionGradientDirection" v)
     else Ok out2) = Ok h.
Proof.
  rewrite dictify_unfold. intros H.
  apply bind_Ok_inv in H as (out1 & H1 & H).
  apply bind_Ok_inv in H as (out2 & H2 & H).
  apply bind_Ok_inv in H as (out3 & H3 & H).
  injection H as <-. eauto.
Qed.

Lemma private_stage (ds : Dataset) (t : Z * Z) (key : string)
  (out out' : pydict) :
  (if has_tag t ds
   then v <- tag_value t ds ;; Ok (dict_set out key v)
   else Ok out) = Ok out' ->
  match find_tag t ds with
  | Some e => out' = dict_set out key (value e)
  | None => out' = out
  end.
Proof.
  unfold has_tag, tag_value. destruct (find_tag t ds) as [e|]; simpl;
    intros H; now injection H as <-.
Qed.

(** X1.  The keys of a flattened header are pairwise distinct. *)
Theorem dictify_keys_unique (ds : Dataset) (h : pydict) :
  dictify ds = Ok h -> NoDup (map fst h).
Proof.
  intros H. apply dictify_stages in H as (out1 & out2 & H1 & H2 & H3).
  apply dictify_loop_NoDup in H1; [|constructor].
  apply private_stage in H2, H3.
  destruct (find_tag (0x0019, 0x100C) ds); subst out2;
    destruct (find_tag (0x0019, 0x100E) ds); subst h;
    repeat apply dict_set_NoDup; exact H1.
Qed.

Lemma dictify_keys_unique_on_sample :
  dictify mixed_dataset =
    Ok [ ("SeriesDescription", VStr "DTI SAX");
         ("", VStr "vendor data");
         ("DiffusionBValue", VInt 1000) ] /\
  NoDup (map fst [ ("SeriesDescription", VStr "DTI SAX");
                   ("", VStr "vendor data");
                   ("DiffusionBValue", VInt 1000) ]).
Proof.
  exact (conj eq_refl (dictify_keys_unique mixed_dataset _ eq_refl)).
Defined.

Lemma dictify_public_key_from_loop (ds : Dataset) (h : pydict) (k : string) :
  dictify ds = Ok h ->
  k <> "DiffusionBValue" -> k <> "DiffusionGradientDirection" ->
  exists out1,
    dictify_loop (elems ds) [] = Ok out1 /\ dict_get h k = dict_get out1 k.
Proof.
  intros H Hb Hg. apply dictify_stages in H as (out1 & out2 & H1 & H2 & H3).
  exists out1. split; [exact H1|].
  apply private_stage in H2, H3.
  destruct (find_tag (0x0019, 0x100C) ds); subst out2;
    destruct (find_tag (0x0019, 0x100E) ds); subst h;
    now rewrite ?dict_get_set_other by assumption.
Qed.

(** X2.  Looking up a key other than the two added ones in a flattened
    header gives what the loop stored for the last element with that
    keyword, and fails when no element has it. *)
Theorem dictify_lookup_last_element (ds : Dataset) (h : pydict) (k : string) :
  dictify ds = Ok h ->
  k <> "DiffusionBValue" -> k <> "DiffusionGradientDirection" ->
  match last_with_keyword k (elems ds) with
  | Some e => exists v, flatten_elem e = Ok v /\ dict_get h k = Some v
  | None => dict_get h k = None
  end.
Proof.
  intros H Hb Hg.
  destruct (dictify_public_key_from_loop ds h k H Hb Hg) as (out1 & Hloop & ->).
  exact (dictify_loop_lookup _ _ _ Hloop k).
Qed.

Lemma dictify_lookup_on_sample :
  dictify mixed_dataset =
    Ok [ ("SeriesDescription", VStr "DTI SAX");
         ("", VStr "vendor data");
         ("DiffusionBValue", VInt 1000) ] /\
  "" <> "DiffusionBValue" /\ "" <> "DiffusionGradientDirection" /\
  match last_with_keyword "" (elems mixed_dataset) with
  | Some e =>
      exists v, flatten_elem e = Ok v /\
        dict_get [ ("SeriesDescription", VStr "DTI SAX");
                   ("", VStr "vendor data");
                   ("DiffusionBValue", VInt 1000) ] "" = Some v
  | None =>
      dict_get [ ("SeriesDescription", VStr "DTI SAX");
                 ("", VStr "vendor data");
                 ("DiffusionBValue", VInt 1000) ] "" = None
  end.
Proof.
  assert (H1 : "" <> "DiffusionBValue") by discriminate.
  assert (H2 : "" <> "DiffusionGradientDirection") by discriminate.
  exact (conj eq_refl (conj H1 (conj H2
           (dictify_lookup_last_element mixed_dataset _ "" eq_refl H1 H2)))).
Defined.

(** X3.  The value of an element that is not a sequence is copied as it
    is: when the last element with keyword [k] has a VR other than SQ, the
    header holds its value under [k]. *)
Theorem dictify_copies_scalar
  (ds : Dataset) (h : pydict) (k : string) (e : DataElement) :
  dictify ds = Ok h ->
  k <> "DiffusionBValue" -> k <> "DiffusionGradientDirection" ->
  last_with_keyword k (elems ds) = Some e ->
  VR e <> "SQ" ->
  dict_get h k = Some (value e).
Proof.
  intros H Hb Hg He Hvr.
  destruct (dictify_public_key_from_loop ds h k H Hb Hg) as (out1 & Hloop & Hout).
  assert (Hl := dictify_loop_lookup _ _ _ Hloop k). rewrite <- Hout in Hl.
  rewrite He in Hl. destruct Hl as (v & Hv & Hk).
  unfold flatten_elem in Hv.
  destruct (String.eqb_spec (VR e) "SQ") as [Heq|_]; [contradiction|].
  simpl in Hv. now injection Hv as <-.
Qed.

Lemma dictify_copies_scalar_on_sample :
  dictify modern_dataset_a = Ok modern_header_a /\
  "StudyTime" <> "DiffusionBValue" /\
  "StudyTime" <> "DiffusionGradientDirection" /\
  last_with_keyword "StudyTime" (elems modern_dataset_a) =
    Some (mkDataElement (0x0008, 0x0030) (Some "StudyTime") "TM"
            (VStr "143022.5")) /\
  "TM" <> "SQ" /\
  dict_get modern_header_a "StudyTime" = Some (VStr "143022.5").
Proof.
  assert (H0 : dictify modern_dataset_a = Ok modern_header_a) by reflexivity.
  assert (H1 : "StudyTime" <> "DiffusionBValue") by discriminate.
  assert (H2 : "StudyTime" <> "DiffusionGradientDirection") by discriminate.
  assert (H3 : "TM" <> "SQ") by discriminate.
  exact (conj H0 (conj H1 (conj H2 (conj eq_refl (conj H3
           (dictify_copies_scalar modern_dataset_a modern_header_a
              "StudyTime" _ H0 H1 H2 eq_refl H3)))))).
Defined.

(** X4.  A sequence element is flattened item by item: when the last
    element with keyword [k] has VR SQ, the header holds under [k] a list
    with one dict per item of the sequence, in the order of the items, each
    the flattened item. *)
Theorem dictify_keeps_sequence_structure
  (ds : Dataset) (h : pydict) (k : string) (e : DataElement) :
  dictify ds = Ok h ->
  k <> "DiffusionBValue" -> k <> "DiffusionGradientDirection" ->
  last_with_keyword k (elems ds) = Some e ->
  VR e = "SQ" ->
  exists items l,
    value e = VSequence items /\
    dict_get h k = Some (VList l) /\
    List.length l = List.length items /\
    Forall2 (fun item v => exists d, dictify item = Ok d /\ v = VDict d)
            items l.
Proof.
  intros H Hb Hg He Hvr.
  destruct (dictify_public_key_from_loop ds h k H Hb Hg) as (out1 & Hloop & Hout).
  assert (Hl := dictify_loop_lookup _ _ _ Hloop k). rewrite <- Hout in Hl.
  rewrite He in Hl. destruct Hl as (v & Hv & Hk).
  unfold flatten_elem in Hv. rewrite Hvr in Hv. simpl in Hv.
  destruct (value e) as [| | | | | | |items| |]; try discriminate.
  apply bind_Ok_inv in Hv as (l & Hitems & Hv). injection Hv as <-.
  apply dictify_items_Forall2 in Hitems.
  exists items, l. repeat split; try assumption.
  symmetry. exact (Forall2_length Hitems).
Qed.

Lemma dictify_keeps_sequence_structure_on_sample :
  dictify modern_dataset_a = Ok modern_header_a /\
  "PerFrameFunctionalGroupsSequence" <> "DiffusionBValue" /\
  "PerFrameFunctionalGroupsSequence" <> "DiffusionGradientDirection" /\
  exists e,
    last_with_keyword "PerFrameFunctionalGroupsSequence"
      (elems modern_dataset_a) = Some e /\
    VR e = "SQ" /\
    exists items l,
      value e = VSequence items /\
      dict_get modern_header_a "PerFrameFunctionalGroupsSequence" =
        Some (VList l) /\
      List.length l = List.length items /\
      Forall2 (fun item v => exists d, dictify item = Ok d /\ v = VDict d)
              items l.
Proof.
  assert (H0 : dictify modern_dataset_a = Ok modern_header_a) by reflexivity.
  assert (H1 : "PerFrameFunctionalGroupsSequence" <> "DiffusionBValue")
    by discriminate.
  assert (H2 : "PerFrameFunctionalGroupsSequence" <>
               "DiffusionGradientDirection") by discriminate.
  refine (conj H0 (conj H1 (conj H2
            (ex_intro _ _ (conj eq_refl (conj eq_refl _)))))).
  exact (dictify_keeps_sequence_structure modern_dataset_a modern_header_a
           "PerFrameFunctionalGroupsSequence" _ H0 H1 H2 eq_refl eq_refl).
Defined.

Lemma dict_get_set_some (d : pydict) (k k' : string) (v v' : pyval) :
  dict_get d k' = Some v' -> exists w, dict_get (dict_set d k v) k' = Some w.
Proof.
  intros H. destruct (String.eqb_spec k' k) as [->|Hne].
  - rewrite dict_get_set_same. eauto.
  - rewrite dict_get_set_other by assumption. eauto.
Qed.

Lemma last_with_keyword_In (e : DataElement) (es : list DataElement) :
  In e es -> exists e', last_with_keyword (keyword e) es = Some e'.
Proof.
  induction es as [|e0 es IH]; simpl; [intros []|].
  intros [->|Hin].
  - destruct (last_with_keyword (keyword e) es); [eauto|].
    rewrite String.eqb_refl. eauto.
  - destruct (IH Hin) as (e' & ->). eauto.
Qed.

(** X5.  The two private look-ups come last and win: when the dataset has
    an element at tag (0019,100C), the header holds that element's value,
    as it is, under "DiffusionBValue", and likewise for tag (0019,100E)
    and "DiffusionGradientDirection", whatever the loop stored there. *)
Theorem dictify_adds_private_diffusion_fields (ds : Dataset) (h : pydict) :
  dictify ds = Ok h ->
  (forall e, find_tag (0x0019, 0x100C) ds = Some e ->
             dict_get h "DiffusionBValue" = Some (value e)) /\
  (forall e, find_tag (0x0019, 0x100E) ds = Some e ->
             dict_get h "DiffusionGradientDirection" = Some (value e)).
Proof.
  intros H. apply dictify_stages in H as (out1 & out2 & _ & H2 & H3).
  apply private_stage in H2, H3. split; intros e He.
  - rewrite He in H2. subst out2.
    destruct (find_tag (0x0019, 0x100E) ds); subst h.
    + rewrite dict_get_set_other by discriminate. apply dict_get_set_same.
    + apply dict_get_set_same.
  - rewrite He in H3. subst h. apply dict_get_set_same.
Qed.

Lemma dictify_adds_b_value_on_sample :
  dictify mixed_dataset =
    Ok [ ("SeriesDescription", VStr "DTI SAX");
         ("", VStr "vendor data");
         ("DiffusionBValue", VInt 1000) ] /\
  find_tag (0x0019, 0x100C) mixed_dataset =
    Some (mkDataElement (0x0019, 0x100C) None "IS" (VInt 1000)) /\
  dict_get [ ("SeriesDescription", VStr "DTI SAX");
             ("", VStr "vendor data");
             ("DiffusionBValue", VInt 1000) ] "DiffusionBValue" =
    Some (VInt 1000).
Proof.
  exact (conj eq_refl (conj eq_refl
           (proj1 (dictify_adds_private_diffusion_fields mixed_dataset _
                     eq_refl) _ eq_refl))).
Defined.

(** X6.  The loop drops no element: every element of the dataset, with or
    without a public keyword, has its [keyword] among the keys of the
    header; in particular a dataset with an element that has no public
    keyword yields a header with the key "". *)
Theorem dictify_stores_every_keyword
  (ds : Dataset) (h : pydict) (e : DataElement) :
  dictify ds = Ok h ->
  In e (elems ds) ->
  exists v, dict_get h (keyword e) = Some v.
Proof.
  intros H Hin. apply dictify_stages in H as (out1 & out2 & H1 & H2 & H3).
  assert (Hout1 : exists v, dict_get out1 (keyword e) = Some v).
  { assert (Hl := dictify_loop_lookup _ _ _ H1 (keyword e)).
    destruct (last_with_keyword_In e _ Hin) as (e' & He'). rewrite He' in Hl.
    destruct Hl as (v & _ & Hv). eauto. }
  apply private_stage in H2, H3.
  assert (Hout2 : exists v, dict_get out2 (keyword e) = Some v).
  { destruct Hout1 as (v & Hv).
    destruct (find_tag (0x0019, 0x100C) ds); subst out2;
      [eapply dict_get_set_some; eassumption | eauto]. }
  destruct Hout2 as (v & Hv).
  destruct (find_tag (0x0019, 0x100E) ds); subst h;
    [eapply dict_get_set_some; eassumption | eauto].
Qed.

Lemma dictify_stores_vendor_element :
  dictify mixed_dataset =
    Ok [ ("SeriesDescription", VStr "DTI SAX");
         ("", VStr "vendor data");
         ("DiffusionBValue", VInt 1000) ] /\
  In (mkDataElement (0x0029, 0x1010) None "LO" (VStr "vendor data"))
     (elems mixed_dataset) /\
  exists v,
    dict_get [ ("SeriesDescription", VStr "DTI SAX");
               ("", VStr "vendor data");
               ("DiffusionBValue", VInt 1000) ] "" = Some v.
Proof.
  assert (Hin : In (mkDataElement (0x0029, 0x1010) None "LO"
                      (VStr "vendor data")) (elems mixed_dataset)).
  { right. right. left. reflexivity. }
  exact (conj eq_refl (conj Hin
           (dictify_stores_every_keyword mixed_dataset _ _ eq_refl Hin))).
Defined.

Lemma last_with_keyword_find (k : string) (es : list DataElement) :
  k <> "" ->
  (last_with_keyword k es = None <-> find_keyword k (mkDataset es) = None).
Proof.
  intros Hk. unfold find_keyword. cbn [elems].
  induction es as [|e es IH]; simpl; [tauto|].
  assert (Hkw : String.eqb (keyword e) k =
                match public_keyword e with
                | Some k' => String.eqb k' k
                | None => false
                end).
  { unfold keyword. destruct (public_keyword e); [reflexivity|].
    now apply String.eqb_neq. }
  rewrite <- Hkw.
  destruct (String.eqb (keyword e) k).
  - split; [|discriminate].
    destruct (last_with_keyword k es); discriminate.
  - destruct (last_with_keyword k es); [|tauto].
    split; [discriminate|]. intros H. apply IH in H. discriminate.
Qed.

(** X7.  The layout check, made on the dataset, and the modern extractors,
    which read the flattened header, look at the same thing: the header
    has the key "PerFrameFunctionalGroupsSequence" exactly when the dataset
    has the element. *)
Theorem flattened_header_has_per_frame_key_iff_dataset_has
  (ds : Dataset) (h : pydict) :
  dictify ds = Ok h ->
  (dict_get h "PerFrameFunctionalGroupsSequence" = None <->
   find_keyword "PerFrameFunctionalGroupsSequence" ds = None).
Proof.
  intros H.
  destruct (dictify_public_key_from_loop ds h
              "PerFrameFunctionalGroupsSequence" H
              ltac:(discriminate) ltac:(discriminate))
    as (out1 & Hloop & Hout).
  assert (Hl := dictify_loop_lookup _ _ _ Hloop
                  "PerFrameFunctionalGroupsSequence").
  rewrite <- Hout in Hl.
  destruct ds as [es]. cbn [elems] in Hl.
  rewrite <- last_with_keyword_find by discriminate.
  destruct (last_with_keyword _ es) as [e|].
  - destruct Hl as (v & _ & ->). split; discriminate.
  - tauto.
Qed.

Lemma per_frame_key_on_samples :
  dictify modern_dataset_a = Ok modern_header_a /\
  (dict_get modern_header_a "PerFrameFunctionalGroupsSequence" = None <->
   find_keyword "PerFrameFunctionalGroupsSequence" modern_dataset_a = None).
Proof.
  assert (H0 : dictify modern_dataset_a = Ok modern_header_a) by reflexivity.
  exact (conj H0
           (flattened_header_has_per_frame_key_iff_dataset_has
              modern_dataset_a modern_header_a H0)).
Defined.

(** ** More on the extractors *)

Lemma py_index_out_of_range {A : Type} (l : list A) (i : Z) :
  i < - Z.of_nat (List.length l) \/ Z.of_nat (List.length l) <= i ->
  py_index l i = Raise IndexError.
Proof.
  intros H. unfold py_index.
  destruct (Z.ltb_spec i 0).
  - destruct (Z.ltb_spec (i + Z.of_nat (List.length l)) 0); [reflexivity|lia].
  - destruct (Z.ltb_spec i 0); [lia|].
    destruct (Z.leb_spec (Z.of_nat (List.length l)) i); [reflexivity|lia].
Qed.

Lemma py_index_negative {A : Type} (l : list A) (i : Z) :
  - Z.of_nat (List.length l) <= i < 0 ->
  py_index l i = py_index l (i + Z.of_nat (List.length l)).
Proof.
  intros H. unfold py_index. cbv zeta.
  assert (E1 : (i <? 0) = true) by (apply Z.ltb_lt; lia).
  assert (E2 : (i + Z.of_nat (List.length l) <? 0) = false)
    by (apply Z.ltb_ge; lia).
  rewrite E1, !E2. reflexivity.
Qed.

Lemma py_index_in_range {A : Type} (l : list A) (i : Z) (a : A) :
  py_index l i = Ok a ->
  - Z.of_nat (List.length l) <= i < Z.of_nat (List.length l).
Proof.
  intros H.
  destruct (Z.lt_ge_cases i (- Z.of_nat (List.length l))) as [Hlo|Hlo];
    [rewrite py_index_out_of_range in H by lia; discriminate|].
  destruct (Z.lt_ge_cases i (Z.of_nat (List.length l))) as [Hhi|Hhi];
    [lia|].
  rewrite py_index_out_of_range in H by lia. discriminate.
Qed.

Lemma nominal_interval_index_error
  (c_dicom_header : pydict) (groups : list pyval) (frame_idx : Z) :
  dict_get c_dicom_header "PerFrameFunctionalGroupsSequence" =
    Some (VList groups) ->
  frame_idx < - Z.of_nat (List.length groups) \/
    Z.of_nat (List.length groups) <= frame_idx ->
  get_nominal_interval c_dicom_header 2 frame_idx = Raise IndexError.
Proof.
  intros Hg Hi. unfold get_nominal_interval, dict_getitem.
  cbn [Z.eqb Pos.eqb]. rewrite Hg. cbn [bind subscript_idx].
  now rewrite (py_index_out_of_range groups frame_idx Hi).
Qed.

(** X8.  Under the modern layout a frame index outside the list of
    per-frame groups, on either side, makes each of the three per-frame
    extractors raise IndexError. *)
Theorem modern_frame_index_out_of_range
  (c_dicom_header : pydict) (groups : list pyval) (frame_idx : Z) :
  dict_get c_dicom_header "PerFrameFunctionalGroupsSequence" =
    Some (VList groups) ->
  frame_idx < - Z.of_nat (List.length groups) \/
    Z.of_nat (List.length groups) <= frame_idx ->
  get_nominal_interval c_dicom_header 2 frame_idx = Raise IndexError /\
  get_acquisition_time c_dicom_header 2 frame_idx = Raise IndexError /\
  get_acquisition_date c_dicom_header 2 frame_idx = Raise IndexError.
Proof.
  intros Hg Hi.
  unfold get_nominal_interval, get_acquisition_time, get_acquisition_date,
    dict_getitem.
  cbn [Z.eqb Pos.eqb]. rewrite Hg. cbn [bind subscript_idx].
  rewrite (py_index_out_of_range groups frame_idx Hi). repeat split.
Qed.

Lemma modern_frame_index_3_out_of_range :
  exists groups,
    dict_get modern_header_a "PerFrameFunctionalGroupsSequence" =
      Some (VList groups) /\
    (3 < - Z.of_nat (List.length groups) \/
       Z.of_nat (List.length groups) <= 3) /\
    get_nominal_interval modern_header_a 2 3 = Raise IndexError /\
    get_acquisition_time modern_header_a 2 3 = Raise IndexError /\
    get_acquisition_date modern_header_a 2 3 = Raise IndexError.
Proof.
  eexists.
  refine ((fun Hg Hi => conj Hg (conj Hi
             (modern_frame_index_out_of_range modern_header_a _ 3 Hg Hi)))
            eq_refl _).
  right. vm_compute. discriminate.
Defined.

(** X9.  Under the modern layout a negative frame index counts from the
    end of the list of per-frame groups: index [i] with [-n <= i < 0]
    gives what index [i + n] gives, [n] the number of groups. *)
Theorem modern_negative_frame_index_wraps
  (c_dicom_header : pydict) (groups : list pyval) (frame_idx : Z) :
  dict_get c_dicom_header "PerFrameFunctionalGroupsSequence" =
    Some (VList groups) ->
  - Z.of_nat (List.length groups) <= frame_idx < 0 ->
  get_nominal_interval c_dicom_header 2 frame_idx =
    get_nominal_interval c_dicom_header 2
      (frame_idx + Z.of_nat (List.length groups)) /\
  get_acquisition_time c_dicom_header 2 frame_idx =
    get_acquisition_time c_dicom_header 2
      (frame_idx + Z.of_nat (List.length groups)) /\
  get_acquisition_date c_dicom_header 2 frame_idx =
    get_acquisition_date c_dicom_header 2
      (frame_idx + Z.of_nat (List.length groups)).
Proof.
  intros Hg Hi.
  unfold get_nominal_interval, get_acquisition_time, get_acquisition_date,
    dict_getitem.
  cbn [Z.eqb Pos.eqb]. rewrite Hg. cbn [bind subscript_idx].
  rewrite (py_index_negative groups frame_idx Hi). repeat split.
Qed.

Lemma modern_frame_index_minus_1_is_last :
  exists groups,
    dict_get modern_header_a "PerFrameFunctionalGroupsSequence" =
      Some (VList groups) /\
    - Z.of_nat (List.length groups) <= -1 < 0 /\
    get_nominal_interval modern_header_a 2 (-1) =
      get_nominal_interval modern_header_a 2
        (-1 + Z.of_nat (List.length groups)) /\
    get_acquisition_time modern_header_a 2 (-1) =
      get_acquisition_time modern_header_a 2
        (-1 + Z.of_nat (List.length groups)) /\
    get_acquisition_date modern_header_a 2 (-1) =
      get_acquisition_date modern_header_a 2
        (-1 + Z.of_nat (List.length groups)).
Proof.
  eexists.
  refine ((fun Hg Hi => conj Hg (conj Hi
             (modern_negative_frame_index_wraps modern_header_a _ (-1)
                Hg Hi)))
            eq_refl _).
  vm_compute. split; [discriminate | reflexivity].
Defined.






Lemma replace_space_no_space (s : string) (n : nat) :
  String.get n (replace_space s) <> Some " "%char.
Proof.
  revert n. induction s as [|c s IH]; intros n; simpl; [discriminate|].
  destruct n as [|n]; [|apply IH].
  destruct (Ascii.eqb_spec c " ") as [->|Hne]; [discriminate|].
  intros H. injection H as ->. now elim Hne.
Qed.

Lemma replace_space_idempotent (s : string) :
  replace_space (replace_space s) = replace_space s.
Proof.
  induction s as [|c s IH]; simpl; [reflexivity|]. rewrite IH.
  destruct (Ascii.eqb_spec c " ") as [->|Hne]; [reflexivity|].
  destruct (Ascii.eqb_spec c " "); [contradiction | reflexivity].
Qed.

Lemma replace_space_length (s : string) :
  String.length (replace_space s) = String.length s.
Proof. induction s as [|c s IH]; simpl; [reflexivity | now rewrite IH]. Qed.

(** X11.  Whatever the header, a suffix that is returned under a
    recognized layout is a string without any space, and replacing spaces
    in it once more changes nothing. *)
Theorem suffix_is_a_string_without_spaces
  (py_repr : pyval -> string) (c_dicom_header : pydict)
  (dicom_type frame_idx : Z) (v : pyval) :
  dicom_type = 1 \/ dicom_type = 2 ->
  get_nii_file_suffix py_repr c_dicom_header dicom_type frame_idx = Ok v ->
  exists s,
    v = VStr s /\
    (forall n, String.get n s <> Some " "%char) /\
    replace_space s = s.
Proof.
  intros Ht H.
  assert (H1 : get_nii_file_suffix py_repr c_dicom_header 1 frame_idx = Ok v).
  { destruct Ht as [-> | ->]; exact H. }
  clear H. unfold get_nii_file_suffix in H1. cbn [Z.eqb Pos.eqb] in H1.
  repeat (apply bind_Ok_inv in H1 as (? & _ & H1)).
  injection H1 as <-. eexists. split; [reflexivity|]. split.
  - apply replace_space_no_space.
  - apply replace_space_idempotent.
Qed.

Lemma suffix_of_legacy_header_has_no_space :
  (1 = 1 \/ 1 = 2) /\
  get_nii_file_suffix blank_repr legacy_header 1 0 =
    Ok (VStr "DTI_SAX_20230101143022_7") /\
  exists s,
    VStr "DTI_SAX_20230101143022_7" = VStr s /\
    (forall n, String.get n s <> Some " "%char) /\
    replace_space s = s.
Proof.
  assert (Ht : 1 = 1 \/ 1 = 2) by (left; reflexivity).
  exact (conj Ht (conj eq_refl
           (suffix_is_a_string_without_spaces blank_repr legacy_header 1 0 _
              Ht eq_refl))).
Defined.

Lemma dict_getitem_agree (h h' : pydict) (k : string) :
  dict_get h k = dict_get h' k -> dict_getitem h k = dict_getitem h' k.
Proof. unfold dict_getitem. now intros ->. Qed.

(** X12.  An assembly step reads the header through the top-level keys of
    its layout only: two headers that agree on those keys (five under the
    modern layout, seven under the legacy one, none otherwise) give the
    same row or the same exception, whatever else they hold. *)
Theorem make_row_reads_layout_keys_only
  (py_repr : pyval -> string) (file_path : string) (h h' : pydict)
  (dicom_type frame_idx : Z) :
  agree_on (keys_read dicom_type) h h' ->
  make_row py_repr file_path h dicom_type frame_idx =
  make_row py_repr file_path h' dicom_type frame_idx.
Proof.
  unfold agree_on, keys_read, make_row, get_nominal_interval,
    get_acquisition_time, get_acquisition_date, get_nii_file_suffix.
  intros H.
  destruct (dicom_type =? 2); [|destruct (dicom_type =? 1)].
  - repeat match goal with
           | H : Forall _ (_ :: _) |- _ =>
               let E := fresh "E" in
               inversion_clear H as [|? ? E ?];
               apply dict_getitem_agree in E
           end.
    now rewrite E, E0, E1, E2, E3.
  - repeat match goal with
           | H : Forall _ (_ :: _) |- _ =>
               let E := fresh "E" in
               inversion_clear H as [|? ? E ?];
               apply dict_getitem_agree in E
           end.
    now rewrite E, E0, E1, E2, E3, E4, E5.
  - reflexivity.
Qed.

Lemma make_row_ignores_added_key :
  agree_on (keys_read 1) legacy_header
           (dict_set legacy_header "DiffusionBValue" (VInt 1000)) /\
  make_row blank_repr "IM_0001.dcm" legacy_header 1 0 =
  make_row blank_repr "IM_0001.dcm"
           (dict_set legacy_header "DiffusionBValue" (VInt 1000)) 1 0.
Proof.
  assert (H : agree_on (keys_read 1) legacy_header
                (dict_set legacy_header "DiffusionBValue" (VInt 1000))).
  { repeat constructor. }
  exact (conj H (make_row_reads_layout_keys_only blank_repr "IM_0001.dcm"
                   _ _ 1 0 H)).
Defined.

(** X13.  A header with neither the per-frame sequence nor the legacy
    NominalInterval field does not pass through as an absent value under a
    recognized layout: the nominal-interval extractor raises KeyError, and
    so does the whole assembly step. *)
Theorem header_without_interval_raises_key_error
  (py_repr : pyval -> string) (file_path : string)
  (c_dicom_header : pydict) (dicom_type frame_idx : Z) :
  dict_get c_dicom_header "PerFrameFunctionalGroupsSequence" = None ->
  dict_get c_dicom_header "NominalInterval" = None ->
  dicom_type = 1 \/ dicom_type = 2 ->
  get_nominal_interval c_dicom_header dicom_type frame_idx = Raise KeyError /\
  make_row py_repr file_path c_dicom_header dicom_type frame_idx =
    Raise KeyError.
Proof.
  intros Hp Hn Ht.
  assert (H : get_nominal_interval c_dicom_header dicom_type frame_idx =
              Raise KeyError).
  { unfold get_nominal_interval, dict_getitem.
    destruct Ht as [-> | ->]; cbn [Z.eqb Pos.eqb];
      [rewrite Hn | rewrite Hp]; reflexivity. }
  split; [exact H|]. unfold make_row. now rewrite H.
Qed.

Lemma header_without_interval_on_sample :
  dict_get [("SeriesDescription", VStr "DTI SAX")]
           "PerFrameFunctionalGroupsSequence" = None /\
  dict_get [("SeriesDescription", VStr "DTI SAX")] "NominalInterval" = None /\
  (1 = 1 \/ 1 = 2) /\
  get_nominal_interval [("SeriesDescription", VStr "DTI SAX")] 1 0 =
    Raise KeyError /\
  make_row blank_repr "IM_0001.dcm" [("SeriesDescription", VStr "DTI SAX")]
           1 0 = Raise KeyError.
Proof.
  assert (Ht : 1 = 1 \/ 1 = 2) by (left; reflexivity).
  exact (conj eq_refl (conj eq_refl (conj Ht
           (header_without_interval_raises_key_error blank_repr "IM_0001.dcm"
              [("SeriesDescription", VStr "DTI SAX")] 1 0
              eq_refl eq_refl Ht)))).
Defined.

(** ** More on the run *)

Lemma run_Ok_inv (py_repr : pyval -> string) (matched : list DicomFile)
  (table : list Row) :
  get_data_from_dicoms_and_export py_repr matched = Ok table ->
  exists first ds dicom_type K df,
    py_index (sort_files matched) 0 = Ok first /\
    dcmread first = Ok ds /\
    classify ds = Ok (dicom_type, K) /\
    file_loop py_repr dicom_type K (sort_files matched) [] = Ok df /\
    table = sort_values df.
Proof.
  unfold get_data_from_dicoms_and_export. intros H.
  apply bind_Ok_inv in H as (first & Hfirst & H).
  apply bind_Ok_inv in H as (ds & Hds & H).
  apply bind_Ok_inv in H as ([dicom_type K] & Hcl & H).
  apply bind_Ok_inv in H as (df & Hdf & H).
  injection H as <-. exists first, ds, dicom_type, K, df. auto.
Qed.

Lemma sort_files_perm (matched : list DicomFile) :
  Permutation matched (sort_files matched).
Proof. apply stable_sort_perm. Qed.

Lemma file_loop_reads_all (py_repr : pyval -> string) (dicom_type n : Z)
  (files : list DicomFile) :
  forall df0 df,
    file_loop py_repr dicom_type n files df0 = Ok df ->
    Forall (fun f => exists ds h, content f = Some ds /\ dictify ds = Ok h)
           files.
Proof.
  induction files as [|f files IH]; intros df0 df H; [constructor|].
  cbn [file_loop] in H.
  apply bind_Ok_inv in H as (ds & Hds & H).
  apply bind_Ok_inv in H as (h & Hh & H).
  apply bind_Ok_inv in H as (df1 & _ & H).
  constructor; [|eapply IH; exact H].
  exists ds, h. split; [|exact Hh].
  unfold dcmread in Hds. destruct (content f); [|discriminate].
  now injection Hds as ->.
Qed.

(** X14.  A table is written only if every matched file parses and
    flattens, also when the first file has no frame at all: one file that
    pydicom cannot read, or whose flattening fails, aborts the run. *)
Theorem table_written_only_if_every_file_reads
  (py_repr : pyval -> string) (matched : list DicomFile) (table : list Row) :
  get_data_from_dicoms_and_export py_repr matched = Ok table ->
  Forall (fun f => exists ds h, content f = Some ds /\ dictify ds = Ok h)
         matched.
Proof.
  intros H. apply run_Ok_inv in H as (first & ds & t & K & df & _ & _ & _ & Hdf & _).
  apply file_loop_reads_all in Hdf.
  eapply Permutation_Forall; [|exact Hdf].
  symmetry. apply sort_files_perm.
Qed.

Lemma modern_files_all_read :
  get_data_from_dicoms_and_export blank_repr modern_files = Ok modern_table /\
  Forall (fun f => exists ds h, content f = Some ds /\ dictify ds = Ok h)
         modern_files.
Proof.
  assert (H : get_data_from_dicoms_and_export blank_repr modern_files =
              Ok modern_table) by (vm_compute; reflexivity).
  exact (conj H (table_written_only_if_every_file_reads blank_repr
                   modern_files modern_table H)).
Defined.

Lemma NoDup_map_injective {A B : Type} (f : A -> B) (l : list A) :
  NoDup (map f l) ->
  forall a b, In a l -> In b l -> f a = f b -> a = b.
Proof.
  induction l as [|x l IH]; simpl; intros Hnd a b Ha Hb Hf; [contradiction|].
  inversion Hnd as [|? ? Hnin Hnd']; subst.
  destruct Ha as [<-|Ha], Hb as [<-|Hb]; try reflexivity.
  - elim Hnin. rewrite Hf. now apply in_map.
  - elim Hnin. rewrite <- Hf. now apply in_map.
  - now apply IH.
Qed.

Lemma sorted_perm_eq {A : Type} (leb : A -> A -> bool) (l : list A) :
  forall l',
    StronglySorted (fun a b => leb a b = true) l ->
    StronglySorted (fun a b => leb a b = true) l' ->
    Permutation l l' ->
    (forall a b, In a l -> In b l ->
                 leb a b = true -> leb b a = true -> a = b) ->
    l = l'.
Proof.
  induction l as [|a t IH]; intros l' Hs Hs' Hp Hanti.
  - apply Permutation_nil in Hp. now subst.
  - destruct l' as [|b t'];
      [apply Permutation_sym, Permutation_nil in Hp; discriminate|].
    inversion Hs as [|? ? Hst Ha]; subst.
    inversion Hs' as [|? ? Hst' Hb]; subst.
    rewrite Forall_forall in Ha, Hb.
    assert (Hab : a = b).
    { assert (Hin_a : In a (b :: t'))
        by (eapply Permutation_in; [exact Hp | now left]).
      assert (Hin_b : In b (a :: t))
        by (eapply Permutation_in;
            [apply Permutation_sym; exact Hp | now left]).
      destruct Hin_a as [->|Hin_a]; [reflexivity|].
      destruct Hin_b as [->|Hin_b]; [reflexivity|].
      apply Hanti; [now left | now right | now apply Ha | now apply Hb]. }
    subst b. f_equal.
    apply IH; try assumption.
    + eapply Permutation_cons_inv; exact Hp.
    + intros x y Hx Hy. apply Hanti; now right.
Qed.

Lemma path_leb_total (f g : DicomFile) :
  String.leb (path f) (path g) = true \/ String.leb (path g) (path f) = true.
Proof. apply String.leb_total. Qed.

Lemma path_leb_trans (f g k : DicomFile) :
  String.leb (path f) (path g) = true ->
  String.leb (path g) (path k) = true ->
  String.leb (path f) (path k) = true.
Proof. apply string_leb_trans. Qed.

Lemma sort_files_sorted (matched : list DicomFile) :
  StronglySorted (fun f g => String.leb (path f) (path g) = true)
                 (sort_files matched).
Proof.
  apply (stable_sort_sorted (fun f g => String.leb (path f) (path g)));
    [exact path_leb_total | exact path_leb_trans].
Qed.

Lemma sort_files_of_permutation (matched matched' : list DicomFile) :
  NoDup (map path matched) ->
  Permutation matched matched' ->
  sort_files matched = sort_files matched'.
Proof.
  intros Hnd Hp.
  apply (sorted_perm_eq (fun f g => String.leb (path f) (path g)));
    try apply sort_files_sorted.
  - rewrite <- (sort_files_perm matched), <- (sort_files_perm matched').
    exact Hp.
  - intros f g Hf Hg Hfg Hgf.
    apply (NoDup_map_injective path matched Hnd).
    + eapply Permutation_in; [symmetry; apply sort_files_perm | exact Hf].
    + eapply Permutation_in; [symmetry; apply sort_files_perm | exact Hg].
    + now apply String.leb_antisym.
Qed.

(** X15.  The outcome of a run does not depend on the order in which the
    matched files are listed: for files with pairwise distinct paths, any
    two listings of the same files give the same table or the same
    exception. *)
Theorem run_independent_of_listing_order
  (py_repr : pyval -> string) (matched matched' : list DicomFile) :
  NoDup (map path matched) ->
  Permutation matched matched' ->
  get_data_from_dicoms_and_export py_repr matched =
  get_data_from_dicoms_and_export py_repr matched'.
Proof.
  intros Hnd Hp. unfold get_data_from_dicoms_and_export.
  now rewrite (sort_files_of_permutation matched matched' Hnd Hp).
Qed.

Lemma modern_files_in_either_order :
  NoDup (map path modern_files) /\
  Permutation modern_files [modern_file_a; modern_file_b] /\
  get_data_from_dicoms_and_export blank_repr modern_files =
  get_data_from_dicoms_and_export blank_repr [modern_file_a; modern_file_b].
Proof.
  assert (Hnd : NoDup (map path modern_files)).
  { repeat constructor; simpl; intros H;
      repeat (destruct H as [H|H]; [discriminate H|]); exact H. }
  assert (Hp : Permutation modern_files [modern_file_a; modern_file_b])
    by apply perm_swap.
  exact (conj Hnd (conj Hp
           (run_independent_of_listing_order blank_repr _ _ Hnd Hp))).
Defined.

Lemma stable_sort_of_sorted {A : Type} (leb : A -> A -> bool) (l : list A) :
  StronglySorted (fun a b => leb a b = true) l -> stable_sort leb l = l.
Proof.
  induction 1 as [|x t Hs IH Hx]; simpl; [reflexivity|].
  rewrite IH. destruct t as [|y t']; [reflexivity|].
  simpl. inversion Hx as [|? ? Hxy]; subst. now rewrite Hxy.
Qed.

(** X16.  Sorting is idempotent: sorting the exported table once more by
    (acquisition date, acquisition time) leaves every row where it is. *)
Theorem sort_values_idempotent (df : list Row) :
  sort_values (sort_values df) = sort_values df.
Proof.
  unfold sort_values. apply stable_sort_of_sorted.
  apply stable_sort_sorted; [apply row_leb_total | apply row_leb_trans].
Qed.

Lemma make_row_file_name (py_repr : pyval -> string) (file_path : string)
  (h : pydict) (dicom_type frame_idx : Z) (r : Row) :
  make_row py_repr file_path h dicom_type frame_idx = Ok r ->
  file_name r = basename file_path.
Proof.
  unfold make_row. intros H.
  repeat (apply bind_Ok_inv in H as (? & _ & H)).
  now injection H as <-.
Qed.

Lemma Forall2_In_r {A B : Type} (R : A -> B -> Prop) (l : list A)
  (l' : list B) :
  Forall2 R l l' -> forall y, In y l' -> exists x, In x l /\ R x y.
Proof.
  induction 1 as [|x y l l' Hxy _ IH]; intros b Hb; [contradiction|].
  destruct Hb as [<-|Hb]; [exists x; split; [now left | exact Hxy]|].
  destruct (IH b Hb) as (a & Ha & Hab). exists a. split; [now right | exact Hab].
Qed.

Lemma Forall2_In_l {A B : Type} (R : A -> B -> Prop) (l : list A)
  (l' : list B) :
  Forall2 R l l' -> forall x, In x l -> exists y, In y l' /\ R x y.
Proof.
  induction 1 as [|x y l l' Hxy _ IH]; intros a Ha; [contradiction|].
  destruct Ha as [<-|Ha]; [exists y; split; [now left | exact Hxy]|].
  destruct (IH a Ha) as (b & Hb & Hab). exists b. split; [now right | exact Hab].
Qed.

Lemma range_In (n i : Z) : In i (range n) <-> 0 <= i < n.
Proof.
  unfold range. rewrite in_map_iff. split.
  - intros (k & <- & Hk). apply in_seq in Hk. lia.
  - intros H. exists (Z.to_nat i). split; [lia|]. apply in_seq. lia.
Qed.

(** X17.  Every row of the exported table stems from one matched file and
    one frame index in [0, K): it is the row the assembly step builds for
    that file and index under the layout of the first file, and its file
    name is the base name of that file's path. *)
Theorem exported_rows_stem_from_matched_files
  (py_repr : pyval -> string) (matched : list DicomFile) (table : list Row) :
  get_data_from_dicoms_and_export py_repr matched = Ok table ->
  exists first ds dicom_type K,
    py_index (sort_files matched) 0 = Ok first /\
    dcmread first = Ok ds /\
    classify ds = Ok (dicom_type, K) /\
    Forall (fun r => exists f i,
              In f matched /\ 0 <= i < K /\
              row_of_pair py_repr dicom_type (f, i) r /\
              file_name r = basename (path f)) table.
Proof.
  intros H.
  apply run_Ok_inv in H as (first & ds & t & K & df & H1 & H2 & H3 & Hdf & ->).
  exists first, ds, t, K. repeat (split; [assumption|]).
  destruct (file_loop_rows _ _ _ _ _ _ Hdf) as (rows & Heq & Hrows).
  simpl in Heq. subst rows.
  eapply Permutation_Forall; [apply stable_sort_perm|].
  apply Forall_forall. intros r Hr.
  destruct (Forall2_In_r _ _ _ Hrows r Hr) as ([f i] & Hin & Hrow).
  apply in_prod_iff in Hin as [Hf Hi].
  exists f, i. split; [|split; [|split]].
  - eapply Permutation_in; [symmetry; apply sort_files_perm | exact Hf].
  - now apply range_In.
  - exact Hrow.
  - destruct Hrow as (ds' & h & _ & _ & Hmk).
    exact (make_row_file_name _ _ _ _ _ _ Hmk).
Qed.

Lemma modern_rows_stem_from_modern_files :
  get_data_from_dicoms_and_export blank_repr modern_files = Ok modern_table /\
  exists first ds dicom_type K,
    py_index (sort_files modern_files) 0 = Ok first /\
    dcmread first = Ok ds /\
    classify ds = Ok (dicom_type, K) /\
    Forall (fun r => exists f i,
              In f modern_files /\ 0 <= i < K /\
              row_of_pair blank_repr dicom_type (f, i) r /\
              file_name r = basename (path f)) modern_table.
Proof.
  assert (H : get_data_from_dicoms_and_export blank_repr modern_files =
              Ok modern_table) by (vm_compute; reflexivity).
  exact (conj H (exported_rows_stem_from_matched_files blank_repr
                   modern_files modern_table H)).
Defined.

Lemma frame_loop_no_frames (py_repr : pyval -> string) (file_path : string)
  (h : pydict) (dicom_type : Z) (df : list Row) :
  frame_loop py_repr file_path h dicom_type (range 0) df = Ok df.
Proof. reflexivity. Qed.

(** X18.  When the first file has an empty per-frame sequence the layout
    check answers K = 0; the run then still reads and flattens every file,
    builds no row and writes an empty table. *)
Theorem empty_per_frame_sequence_gives_empty_table
  (py_repr : pyval -> string) (matched : list DicomFile)
  (first : DicomFile) (ds : Dataset) (dicom_type : Z) :
  py_index (sort_files matched) 0 = Ok first ->
  dcmread first = Ok ds ->
  classify ds = Ok (dicom_type, 0) ->
  Forall (fun f => exists ds h, content f = Some ds /\ dictify ds = Ok h)
         matched ->
  get_data_from_dicoms_and_export py_repr matched = Ok [].
Proof.
  intros Hfirst Hds Hcl Hall.
  rewrite (run_unfold py_repr matched first ds Hfirst Hds), Hcl.
  cbn [bind].
  assert (Hloop : forall files df0,
            Forall (fun f => exists ds h,
                      content f = Some ds /\ dictify ds = Ok h) files ->
            file_loop py_repr dicom_type 0 files df0 = Ok df0).
  { induction files as [|f files IH]; intros df0 Hf; [reflexivity|].
    inversion Hf as [|? ? (ds' & h & Hc & Hh) Hf']; subst.
    cbn [file_loop]. unfold dcmread. rewrite Hc. cbn [bind].
    rewrite Hh. cbn [bind]. rewrite frame_loop_no_frames. cbn [bind].
    now apply IH. }
  rewrite Hloop; [reflexivity|].
  eapply Permutation_Forall; [apply sort_files_perm | exact Hall].
Qed.

Lemma frameless_first_gives_empty_table :
  py_index (sort_files frameless_first) 0 = Ok frameless_file /\
  dcmread frameless_file = Ok (modern_dataset []) /\
  classify (modern_dataset []) = Ok (2, 0) /\
  Forall (fun f => exists ds h, content f = Some ds /\ dictify ds = Ok h)
         frameless_first /\
  get_data_from_dicoms_and_export blank_repr frameless_first = Ok [].
Proof.
  assert (H1 : py_index (sort_files frameless_first) 0 = Ok frameless_file)
    by reflexivity.
  assert (H2 : dcmread frameless_file = Ok (modern_dataset []))
    by reflexivity.
  assert (H3 : classify (modern_dataset []) = Ok (2, 0)) by reflexivity.
  assert (H4 : Forall (fun f => exists ds h,
                         content f = Some ds /\ dictify ds = Ok h)
                      frameless_first).
  { repeat constructor; eexists; eexists; split; reflexivity. }
  exact (conj H1 (conj H2 (conj H3 (conj H4
           (empty_per_frame_sequence_gives_empty_table blank_repr
              frameless_first frameless_file (modern_dataset []) 2
              H1 H2 H3 H4))))).
Defined.

Lemma basename_from_app (a b acc : string) :
  basename_from (a ++ b) acc = basename_from b (basename_from a acc).
Proof.
  revert acc. induction a as [|c a IH]; intros acc; simpl; [reflexivity|].
  destruct (Ascii.eqb c "/"); apply IH.
Qed.

Lemma basename_from_no_slash (name acc : string) :
  contains_char "/" name = false ->
  basename_from name acc = (acc ++ name)%string.
Proof.
  revert acc. induction name as [|c name IH]; intros acc; simpl.
  - intros _. induction acc as [|x acc IHacc]; simpl; [reflexivity|].
    now rewrite <- IHacc.
  - intros H. apply orb_false_elim in H as [Hc Hname]. rewrite Hc.
    rewrite (IH _ Hname). now rewrite string_append_assoc.
Qed.

Lemma contains_char_app (c : ascii) (a b : string) :
  contains_char c (a ++ b) = contains_char c a || contains_char c b.
Proof.
  induction a as [|x a IH]; simpl; [reflexivity|].
  now rewrite IH, orb_assoc.
Qed.

Lemma basename_from_has_no_slash (p acc : string) :
  contains_char "/" acc = false ->
  contains_char "/" (basename_from p acc) = false.
Proof.
  revert acc. induction p as [|c p IH]; intros acc Hacc; simpl; [exact Hacc|].
  destruct (Ascii.eqb c "/") eqn:Hc; [now apply IH|].
  apply IH. rewrite contains_char_app, Hacc. simpl. now rewrite Hc.
Qed.

(** X19.  The file name of a row undoes the join that made the path: for a
    name without slash, the base name of [dir/name] is [name], whatever
    the directory. *)
Theorem basename_of_joined_path (dir name : string) :
  contains_char "/" name = false ->
  basename (dir ++ "/" ++ name) = name.
Proof.
  intros H. unfold basename.
  rewrite basename_from_app. simpl.
  now rewrite (basename_from_no_slash name "" H).
Qed.

Lemma basename_of_joined_sample :
  contains_char "/" "IM_0001.dcm" = false /\
  basename ("/data/study 1" ++ "/" ++ "IM_0001.dcm") = "IM_0001.dcm".
Proof.
  exact (conj eq_refl
           (basename_of_joined_path "/data/study 1" "IM_0001.dcm" eq_refl)).
Defined.

(** X20.  A base name holds no slash, so taking the base name twice is
    taking it once. *)
Theorem basename_has_no_slash (p : string) :
  contains_char "/" (basename p) = false /\
  basename (basename p) = basename p.
Proof.
  assert (H : contains_char "/" (basename p) = false)
    by (apply basename_from_has_no_slash; reflexivity).
  split; [exact H|]. unfold basename at 1.
  now rewrite (basename_from_no_slash _ "" H).
Qed.

Lemma dictify_deterministic_content (f : DicomFile) (ds ds' : Dataset) :
  dcmread f = Ok ds -> content f = Some ds' -> ds = ds'.
Proof.
  unfold dcmread. intros H Hc. rewrite Hc in H. now injection H.
Qed.

(** X21.  A run that classified the first file as modern with K frames
    and wrote a table has found at least K per-frame groups in every
    matched file: a file whose flattened header lists fewer groups than
    the first file aborts the run. *)
Theorem table_written_only_if_every_file_has_k_frames
  (py_repr : pyval -> string) (matched : list DicomFile) (table : list Row)
  (first : DicomFile) (ds0 : Dataset) (K : Z)
  (f : DicomFile) (ds : Dataset) (h : pydict) (groups : list pyval) :
  get_data_from_dicoms_and_export py_repr matched = Ok table ->
  py_index (sort_files matched) 0 = Ok first ->
  dcmread first = Ok ds0 ->
  classify ds0 = Ok (2, K) ->
  In f matched ->
  content f = Some ds ->
  dictify ds = Ok h ->
  dict_get h "PerFrameFunctionalGroupsSequence" = Some (VList groups) ->
  K <= Z.of_nat (List.length groups).
Proof.
  intros Hrun Hfirst Hds0 Hcl Hf Hc Hh Hg.
  rewrite (run_unfold py_repr matched first ds0 Hfirst Hds0), Hcl in Hrun.
  cbn [bind] in Hrun.
  apply bind_Ok_inv in Hrun as (df & Hdf & _).
  destruct (file_loop_rows _ _ _ _ _ _ Hdf) as (rows & _ & Hrows).
  destruct (Z.le_gt_cases K (Z.of_nat (List.length groups))) as [Hle|Hgt];
    [exact Hle|].
  exfalso.
  assert (Hin : In (f, Z.of_nat (List.length groups))
                   (list_prod (sort_files matched) (range K))).
  { apply in_prod_iff. split.
    - eapply Permutation_in; [apply sort_files_perm | exact Hf].
    - apply range_In. lia. }
  destruct (Forall2_In_l _ _ _ Hrows _ Hin) as (r & _ & ds' & h' & Hr1 & Hr2 & Hmk).
  cbn [fst snd] in Hr1, Hr2, Hmk.
  rewrite (dictify_deterministic_content f ds' ds Hr1 Hc), Hh in Hr2.
  injection Hr2 as <-.
  unfold make_row in Hmk.
  rewrite (nominal_interval_index_error h groups
             (Z.of_nat (List.length groups)) Hg) in Hmk by (right; lia).
  discriminate.
Qed.

Lemma modern_files_have_three_frames :
  exists groups,
    get_data_from_dicoms_and_export blank_repr modern_files =
      Ok modern_table /\
    py_index (sort_files modern_files) 0 = Ok modern_file_a /\
    dcmread modern_file_a = Ok modern_dataset_a /\
    classify modern_dataset_a = Ok (2, 3) /\
    In modern_file_a modern_files /\
    content modern_file_a = Some modern_dataset_a /\
    dictify modern_dataset_a = Ok modern_header_a /\
    dict_get modern_header_a "PerFrameFunctionalGroupsSequence" =
      Some (VList groups) /\
    3 <= Z.of_nat (List.length groups).
Proof.
  eexists.
  refine ((fun H1 H2 H3 H4 H5 H6 H7 H8 =>
             conj H1 (conj H2 (conj H3 (conj H4 (conj H5 (conj H6 (conj H7
               (conj H8
                  (table_written_only_if_every_file_has_k_frames blank_repr
                     modern_files modern_table modern_file_a modern_dataset_a
                     3 modern_file_a modern_dataset_a modern_header_a _
                     H1 H2 H3 H4 H5 H6 H7 H8)))))))))
            _ eq_refl eq_refl eq_refl _ eq_refl eq_refl eq_refl).
  - vm_compute. reflexivity.
  - right. left. reflexivity.
Defined.

Lemma last_with_keyword_some (k : string) (es : list DataElement)
  (e : DataElement) :
  last_with_keyword k es = Some e -> In e es /\ keyword e = k.
Proof.
  induction es as [|e0 es IH]; simpl; [discriminate|].
  destruct (last_with_keyword k es) as [e'|].
  - intros H. injection H as <-. destruct (IH eq_refl). split; [now right | assumption].
  - destruct (String.eqb_spec (keyword e0) k) as [Hk|]; [|discriminate].
    intros H. injection H as <-. split; [now left | exact Hk].
Qed.

Lemma find_keyword_some (k : string) (ds : Dataset) (e : DataElement) :
  find_keyword k ds = Some e -> In e (elems ds) /\ keyword e = k.
Proof.
  unfold find_keyword. intros H. apply find_some in H as [Hin Hk].
  split; [exact Hin|]. unfold keyword.
  destruct (public_keyword e); [now apply String.eqb_eq | discriminate].
Qed.

(** X22.  The frame count of the layout check is the frame count of the
    flattened header: for a dataset with one PerFrameFunctionalGroupsSequence
    element, of VR SQ, that is classified as modern with K frames, the
    header lists exactly K per-frame groups, so that the frame indices
    0 .. K-1 of the loop are all in range for that file. *)
Theorem layout_check_counts_flattened_groups
  (ds : Dataset) (h : pydict) (dicom_type K : Z) (e : DataElement) :
  dictify ds = Ok h ->
  classify ds = Ok (dicom_type, K) ->
  find_keyword "PerFrameFunctionalGroupsSequence" ds = Some e ->
  keyword_unique "PerFrameFunctionalGroupsSequence" ds ->
  VR e = "SQ" ->
  dicom_type = 2 /\
  exists groups,
    dict_get h "PerFrameFunctionalGroupsSequence" = Some (VList groups) /\
    Z.of_nat (List.length groups) = K.
Proof.
  intros Hh Hcl He Huniq Hvr.
  destruct (dictify_public_key_from_loop ds h
              "PerFrameFunctionalGroupsSequence" Hh
              ltac:(discriminate) ltac:(discriminate))
    as (out1 & Hloop & Hout).
  assert (Hl := dictify_loop_lookup _ _ _ Hloop
                  "PerFrameFunctionalGroupsSequence").
  rewrite <- Hout in Hl.
  destruct (find_keyword_some _ _ _ He) as [Hin Hk].
  destruct (last_with_keyword_In e _ Hin) as (e' & He'). rewrite Hk in He'.
  rewrite He' in Hl. destruct Hl as (v & Hv & Hget).
  destruct (last_with_keyword_some _ _ _ He') as [Hin' Hk'].
  assert (e' = e) by (apply Huniq; assumption). subst e'.
  unfold classify in Hcl. rewrite He in Hcl.
  unfold flatten_elem in Hv. rewrite Hvr in Hv. simpl in Hv.
  destruct (value e) as [| | | | | | |items| |]; try discriminate.
  apply bind_Ok_inv in Hv as (l & Hitems & Hv). injection Hv as <-.
  apply dictify_items_Forall2, Forall2_length in Hitems.
  simpl in Hcl. injection Hcl as <- <-.
  split; [reflexivity|]. exists l. split; [exact Hget|]. now rewrite Hitems.
Qed.

Lemma layout_check_counts_groups_on_sample :
  dictify modern_dataset_a = Ok modern_header_a /\
  classify modern_dataset_a = Ok (2, 3) /\
  keyword_unique "PerFrameFunctionalGroupsSequence" modern_dataset_a /\
  2 = 2 /\
  exists groups,
    dict_get modern_header_a "PerFrameFunctionalGroupsSequence" =
      Some (VList groups) /\
    Z.of_nat (List.length groups) = 3.
Proof.
  assert (H1 : dictify modern_dataset_a = Ok modern_header_a) by reflexivity.
  assert (H2 : classify modern_dataset_a = Ok (2, 3)) by reflexivity.
  assert (H3 : keyword_unique "PerFrameFunctionalGroupsSequence"
                 modern_dataset_a).
  { intros e e' He He' Hk Hk'. simpl in He, He'.
    repeat (destruct He as [<-|He]; [try discriminate Hk|]);
      [|contradiction].
    repeat (destruct He' as [<-|He']; [try discriminate Hk'|]);
      [reflexivity | contradiction]. }
  exact (conj H1 (conj H2 (conj H3
           (layout_check_counts_flattened_groups modern_dataset_a
              modern_header_a 2 3 _ H1 H2 eq_refl H3 eq_refl)))).
Defined.

Lemma Ok_inj {A : Type} (a b : A) : Ok a = Ok b -> a = b.
Proof. congruence. Qed.

(** X23.  [round] returns an integer nearest to the float: for a float of
    magnitude [m * 2^e] the result has the sign of the float or is zero,
    equals the float when [e >= 0], and for [e < 0] lies within one half
    of it, being even when it lies exactly one half away. *)
Theorem py_round_is_nearest_even (s : bool) (m : positive) (e n : Z) :
  py_round (S754_finite s m e) = Ok n ->
  (if s then n <= 0 else 0 <= n) /\
  (0 <= e -> Z.abs n = Zpos m * 2 ^ e) /\
  (e < 0 ->
   2 * Z.abs (Z.abs n * 2 ^ (- e) - Zpos m) <= 2 ^ (- e) /\
   (2 * Z.abs (Z.abs n * 2 ^ (- e) - Zpos m) = 2 ^ (- e) ->
    Z.even n = true)).
Proof.
  intros H. unfold py_round in H. apply Ok_inj in H. subst n.
  destruct (Z.leb_spec 0 e) as [He|He]; cbv iota zeta.
  - assert (Hp : 0 < 2 ^ e) by (apply Z.pow_pos_nonneg; lia).
    assert (Hm : 0 < Zpos m * 2 ^ e) by (apply Z.mul_pos_pos; lia).
    split; [destruct s; cbv iota; lia|].
    split; [intros _; destruct s; cbv iota; lia | lia].
  - set (d := 2 ^ (- e)).
    assert (Hd : 0 < d) by (apply Z.pow_pos_nonneg; lia).
    assert (Hdiv := Z.div_mod (Zpos m) d ltac:(lia)).
    assert (Hmod := Z.mod_pos_bound (Zpos m) d Hd).
    assert (Hq : 0 <= Zpos m / d) by (apply Z.div_pos; lia).
    set (q := Zpos m / d) in *. set (r := Zpos m mod d) in *.
    set (n := match 2 * r ?= d with
              | Eq => if Z.even q then q else q + 1
              | Lt => q
              | Gt => q + 1
              end).
    assert (Hn : 0 <= n /\
                 2 * Z.abs (n * d - Zpos m) <= d /\
                 (2 * Z.abs (n * d - Zpos m) = d -> Z.even n = true)).
    { subst n. destruct (Z.compare_spec (2 * r) d) as [Heq|Hlt|Hgt].
      - destruct (Z.even q) eqn:Hev.
        + split; [lia|]. split; [nia | intros _; exact Hev].
        + split; [lia|]. split; [nia|]. intros _.
          rewrite Z.even_add, Hev. reflexivity.
      - split; [lia|]. split; nia.
      - split; [lia|]. split; nia. }
    destruct Hn as (Hn0 & Hn1 & Hn2).
    assert (Habs : Z.abs (if s then - n else n) = n)
      by (destruct s; cbv iota; lia).
    split; [destruct s; cbv iota; lia|]. split; [lia|]. intros _.
    rewrite Habs. split; [exact Hn1|].
    intros Ht. destruct s; [rewrite Z.even_opp|]; now apply Hn2.
Qed.

Lemma py_round_of_study_time :
  py_round (S754_finite false 4914215680737280 (-35)) = Ok 143022 /\
  (0 <= 143022) /\
  (0 <= -35 -> Z.abs 143022 = 4914215680737280 * 2 ^ (-35)) /\
  (-35 < 0 ->
   2 * Z.abs (Z.abs 143022 * 2 ^ (- -35) - 4914215680737280) <= 2 ^ (- -35) /\
   (2 * Z.abs (Z.abs 143022 * 2 ^ (- -35) - 4914215680737280) = 2 ^ (- -35) ->
    Z.even 143022 = true)).
Proof.
  exact (conj eq_refl
           (py_round_is_nearest_even false 4914215680737280 (-35) 143022
              eq_refl)).
Defined.





